(** * Garmin Connect MCP server: session bootstrap and activity listing

    A shallow embedding of [garmin_mcp_server.py].  The program is a thin
    adapter: it reads its configuration from the process environment,
    builds one authenticated [Garmin] client ([init_api]), hands it to the
    tool modules ([main]) and serves one tool of its own
    ([list_activities]).

    Everything the program does is an interaction with collaborators it
    does not own: the Garmin client library, the file system, the MCP
    runtime.  They are gathered in an [environment] record of responses;
    the program itself is written in a small state-and-exception monad
    [Py] over a [world] that records what was called, what was printed and
    what the file system holds. *)

From Stdlib Require Import ZArith String Ascii List.
From stdpp Require Import base tactics option list gmap strings pretty.

Local Open Scope string_scope.
Local Open Scope Z_scope.

(** ** Python values and exceptions *)

(** The values a decoded JSON document is made of.  A [dict] keeps its
    entries in insertion order; its keys are strings and are unique. *)
#[local] Set Warnings "-register-all".
Inductive pyval : Type :=
| PyNone
| PyBool (b : bool)
| PyInt (n : Z)
| PyStr (s : string)
| PyList (items : list pyval)
| PyDict (entries : list (string * pyval)).

(** The exception classes that can reach the handlers of this file.  None
    of them is a subclass of another one of the list, so an [except]
    clause catches an exception exactly when its class is named there. *)
Inductive exn_class : Type :=
| FileNotFoundError
| PermissionError
| NotADirectoryError
| JSONDecodeError
| KeyError
| TypeError
| AttributeError
| RuntimeError
| GarthHTTPError
| GarminConnectAuthenticationError
| GarminConnectConnectionError
| GarminConnectTooManyRequestsError
| RequestsHTTPError
| RequestsConnectionError.

#[global] Instance exn_class_eq_dec : EqDecision exn_class.
Proof. solve_decision. Defined.

(** An exception instance: its class and the text [str(e)] gives. *)
Record exn : Type := Exn { exn_cls : exn_class; exn_str : string }.

#[global] Instance exn_eq_dec : EqDecision exn.
Proof. solve_decision. Defined.

(** [isinstance(e, (c1, ..., cn))] *)
Definition isinstance (e : exn) (classes : list exn_class) : bool :=
  bool_decide (exn_cls e ∈ classes).

Definition nl : string := String (ascii_of_nat 10) EmptyString.

(** Truthiness of the values the program tests with [not] and [bool]. *)
Definition truthy_str (s : string) : bool :=
  match s with EmptyString => false | String _ _ => true end.

Definition truthy_opt (o : option string) : bool :=
  match o with None => false | Some s => truthy_str s end.

Definition truthy (v : pyval) : bool :=
  match v with
  | PyNone => false
  | PyBool b => b
  | PyInt n => negb (n =? 0)
  | PyStr s => truthy_str s
  | PyList items => match items with [] => false | _ :: _ => true end
  | PyDict entries => match entries with [] => false | _ :: _ => true end
  end.

(** [a or b] on an optional string and a string default. *)
Definition py_or (a : option string) (b : string) : string :=
  match a with
  | Some s => if truthy_str s then s else b
  | None => b
  end.

(** ** The Garmin client and its session *)

(** An authenticated session as the garth library holds it.  The two
    fields are its two serialisations: what [garth.dump] stores in the
    token directory and what [garth.dumps] returns as one base64 blob. *)
Record session : Type := Session { sess_artifacts : string; sess_base64 : string }.

#[global] Instance session_eq_dec : EqDecision session.
Proof. solve_decision. Defined.

(** A [Garmin] object on which [login] has returned: the constructor
    arguments and the session it is bound to. *)
Record Garmin : Type := MkGarmin {
  username : option string;
  passwd : option string;
  is_cn : bool;
  garth : session
}.

(** The tool modules imported by the server, in the order [main] uses them. *)
Inductive module : Type :=
| activity_management
| health_wellness
| user_profile
| devices
| gear_management
| weight_management
| challenges
| training
| workouts
| data_management
| womens_health.

Definition modules : list module :=
  [activity_management; health_wellness; user_profile; devices;
   gear_management; weight_management; challenges; training; workouts;
   data_management; womens_health].

(** ** The world *)

(** The calls that leave the process, in the order they are made: network
    exchanges with Garmin and file system operations, each with how it
    ended ([None]: it returned).  [EvTokenLogin p r] is [login(p)], the
    login from the token store [p]; [EvPasswordLogin u pw r] is [login()]
    on a client built with the credentials [u] and [pw]. *)
Inductive event : Type :=
| EvTokenLogin (store : string) (r : option exn)
| EvPasswordLogin (user pw : option string) (r : option exn)
| EvMakedirs (path : string) (r : option exn)
| EvDump (path : string) (r : option exn)
| EvOpenW (path : string) (r : option exn)
| EvFileWrite (path : string) (data : string) (r : option exn)
| EvGetActivities (start limit : Z) (r : option exn).

(** What reaches standard output: [print(s)] or
    [sys.stdout.write(json.dumps(v) + "\n")]. *)
Inductive out_item : Type :=
| OutPrint (s : string)
| OutJson (v : pyval).

Record world : Type := World {
  w_log : list event;
  w_stdout : list out_item;
  w_dirs : gset string;
  w_store : gmap string session;
  w_files : gmap string string
}.

Definition log_event (ev : event) (w : world) : world :=
  World (w_log w ++ [ev]) (w_stdout w) (w_dirs w) (w_store w) (w_files w).

Definition emit (o : out_item) (w : world) : world :=
  World (w_log w) (w_stdout w ++ [o]) (w_dirs w) (w_store w) (w_files w).

Definition add_dir (p : string) (w : world) : world :=
  World (w_log w) (w_stdout w) ({[ p ]} ∪ w_dirs w) (w_store w) (w_files w).

Definition put_store (p : string) (s : session) (w : world) : world :=
  World (w_log w) (w_stdout w) (w_dirs w) (<[ p := s ]> (w_store w)) (w_files w).

(** [open(p, "w")] creates the file or truncates it to length zero. *)
Definition truncate_file (p : string) (w : world) : world :=
  World (w_log w) (w_stdout w) (w_dirs w) (w_store w)
        (<[ p := EmptyString ]> (w_files w)).

(** [f.write(data)] on a file opened for writing adds [data] at the
    position reached so far, the end of what the handle has written. *)
Definition append_file (p data : string) (w : world) : world :=
  World (w_log w) (w_stdout w) (w_dirs w) (w_store w)
        (<[ p := default EmptyString (w_files w !! p) +:+ data ]> (w_files w)).

(** ** The monad of Python statements *)

(** A statement returns, raises an exception, or leaves through
    [sys.exit(code)], which no [except] clause of this program catches. *)
Inductive outcome (A : Type) : Type :=
| Ret (a : A)
| Raise (e : exn)
| Exit (code : Z).
Arguments Ret {A} a.
Arguments Raise {A} e.
Arguments Exit {A} code.

Definition Py (A : Type) : Type := world → outcome A * world.

#[global] Instance py_ret : MRet Py := λ A a w, (Ret a, w).

#[global] Instance py_bind : MBind Py := λ A B f m w,
  match m w with
  | (Ret a, w') => f a w'
  | (Raise e, w') => (Raise e, w')
  | (Exit c, w') => (Exit c, w')
  end.

Definition raise {A} (e : exn) : Py A := λ w, (Raise e, w).

Definition sys_exit {A} (code : Z) : Py A := λ w, (Exit code, w).

Definition effect (f : world → world) : Py unit := λ w, (Ret tt, f w).

(** [try: body  except classes as err: handler err] *)
Definition try_except {A} (body : Py A) (classes : list exn_class)
    (handler : exn → Py A) : Py A := λ w,
  match body w with
  | (Raise e, w') => if isinstance e classes then handler e w' else (Raise e, w')
  | r => r
  end.

(** [try: body  except Exception as err: handler err]; every class of
    [exn_class] derives from [Exception]. *)
Definition try_except_Exception {A} (body : Py A) (handler : exn → Py A) : Py A :=
  λ w,
  match body w with
  | (Raise e, w') => handler e w'
  | r => r
  end.

Definition print (s : string) : Py unit := effect (emit (OutPrint s)).

Definition stdout_write_json (v : pyval) : Py unit := effect (emit (OutJson v)).

(** ** The collaborators *)

(** File system calls and calls into the tool modules and the MCP
    runtime, all of which may raise. *)
Inductive io_op : Type :=
| OpMakedirs
| OpDump
| OpOpen
| OpWrite
| OpConfigure (m : module)
| OpFastMCP
| OpRegister (m : module)
| OpTool
| OpRun.

(** How the collaborators answer during one run of the process.
    - [expanduser]: [os.path.expanduser];
    - [token_login store p]: [Garmin().login(p)], the restoration of a
      session from the token directory [p], given what the token
      directories hold; it returns the restored session or raises;
    - [password_login store u p]: [Garmin(email=u, password=p).login()],
      the login of a client built with the credentials, no token store
      being passed, given what the token directories hold; the library
      exchanges the credentials with Garmin unless it finds a token store
      to load in [GARMINTOKENS] (see [library_login]); it returns the
      session or raises;
    - [fault op]: the exception [op] raises, if it raises;
    - [get_activities c start limit]: the client's method of that name;
    - [py_repr]: Python's [repr] of a list or a dict. *)
Record environment : Type := Environment {
  expanduser : string → string;
  token_login : gmap string session → string → exn + session;
  password_login : gmap string session → option string → option string
                   → exn + session;
  fault : io_op → option exn;
  get_activities : Garmin → Z → Z → exn + pyval;
  py_repr : pyval → string
}.

(** ** Module-level configuration (lines 36-41) *)

Record globals : Type := Globals {
  email : option string;
  password : option string;
  tokenstore : string;
  tokenstore_base64 : string;
  mcp_mode : bool
}.

Definition load_globals (environ : gmap string string) : globals :=
  {| email := environ !! "GARMIN_EMAIL";
     password := environ !! "GARMIN_PASSWORD";
     tokenstore := py_or (environ !! "GARMINTOKENS") "~/.garminconnect";
     tokenstore_base64 :=
       py_or (environ !! "GARMINTOKENS_BASE64") "~/.garminconnect_base64";
     mcp_mode := truthy_opt (environ !! "MCP_MODE") |}.

Section Server.

Context (env : environment) (g : globals).

(** *** Library calls, as the program sees them *)

Definition garmin_login_tokens (store : string) : Py Garmin := λ w,
  match token_login env (w_store w) store with
  | inl e => (Raise e, log_event (EvTokenLogin store (Some e)) w)
  | inr s => (Ret (MkGarmin None None false s),
              log_event (EvTokenLogin store None) w)
  end.

Definition garmin_login_password (user pw : option string) : Py Garmin := λ w,
  match password_login env (w_store w) user pw with
  | inl e => (Raise e, log_event (EvPasswordLogin user pw (Some e)) w)
  | inr s => (Ret (MkGarmin user pw false s),
              log_event (EvPasswordLogin user pw None) w)
  end.

(** [os.makedirs(path, exist_ok=True)] *)
Definition os_makedirs (path : string) : Py unit := λ w,
  match fault env OpMakedirs with
  | Some e => (Raise e, log_event (EvMakedirs path (Some e)) w)
  | None => (Ret tt, add_dir path (log_event (EvMakedirs path None) w))
  end.

(** [garmin.garth.dump(path)]; garth expands [~] in [path] itself. *)
Definition garth_dump (c : Garmin) (path : string) : Py unit := λ w,
  match fault env OpDump with
  | Some e => (Raise e, log_event (EvDump path (Some e)) w)
  | None => (Ret tt, put_store (expanduser env path) (garth c)
                       (log_event (EvDump path None) w))
  end.

(** [garmin.garth.dumps()] *)
Definition garth_dumps (c : Garmin) : Py string :=
  mret (sess_base64 (garth c)).

(** [with open(path, "w") as f: f.write(data)] *)
Definition open_w (path : string) : Py unit := λ w,
  match fault env OpOpen with
  | Some e => (Raise e, log_event (EvOpenW path (Some e)) w)
  | None => (Ret tt, truncate_file path (log_event (EvOpenW path None) w))
  end.

Definition file_write (path data : string) : Py unit := λ w,
  match fault env OpWrite with
  | Some e => (Raise e, log_event (EvFileWrite path data (Some e)) w)
  | None => (Ret tt, append_file path data (log_event (EvFileWrite path data None) w))
  end.

(** *** [send_mcp_error] (lines 43-55) *)

Definition mcp_error_response (error_msg : string) : pyval :=
  PyDict [("jsonrpc", PyStr "2.0");
          ("error", PyDict [("code", PyInt (-32000));
                            ("message", PyStr error_msg)]);
          ("id", PyNone)].

Definition send_mcp_error (error_msg : string) : Py unit :=
  if mcp_mode g then stdout_write_json (mcp_error_response error_msg)
  else mret tt.

(** *** [init_api] (lines 57-103) *)

Definition missing_credentials_msg : string :=
  "GARMIN_EMAIL and GARMIN_PASSWORD environment variables must be set".

Definition tokens_stored_msg : string :=
  "Oauth tokens stored for future use." +:+ nl.

Definition report (error_msg : string) : Py unit :=
  if mcp_mode g then send_mcp_error error_msg else print error_msg.

Definition password_fallback (email password : option string) : Py (option Garmin) :=
  garmin ← garmin_login_password email password;
  os_makedirs (expanduser env (tokenstore g));;
  garth_dump garmin (tokenstore g);;
  token_base64 ← garth_dumps garmin;
  open_w (expanduser env (tokenstore_base64 g));;
  file_write (expanduser env (tokenstore_base64 g)) token_base64;;
  print tokens_stored_msg;;
  mret (Some garmin).

Definition init_api (email password : option string) : Py (option Garmin) :=
  if negb (truthy_opt email) || negb (truthy_opt password) then
    report missing_credentials_msg;;
    mret None
  else
    try_except
      (if mcp_mode g then
         garmin ← garmin_login_password email password;
         os_makedirs (expanduser env (tokenstore g));;
         garth_dump garmin (tokenstore g);;
         mret (Some garmin)
       else
         try_except
           (garmin ← garmin_login_tokens (tokenstore g);
            mret (Some garmin))
           [FileNotFoundError; GarthHTTPError]
           (λ _, password_fallback email password))
      [GarthHTTPError; GarminConnectAuthenticationError; RequestsHTTPError]
      (λ err,
         report ("Authentication error: " +:+ exn_str err);;
         mret None).

(** *** [main] (lines 106-193) *)

(** A call into a tool module or the MCP runtime: it returns or raises. *)
Definition call (op : io_op) : Py unit := λ w,
  match fault env op with
  | Some e => (Raise e, w)
  | None => (Ret tt, w)
  end.

Fixpoint for_each {A} (f : A → Py unit) (l : list A) : Py unit :=
  match l with
  | [] => mret tt
  | x :: l' => f x;; for_each f l'
  end.

(** [try: body  except Exception as e: handler e; return], followed by
    the rest of the function. *)
Definition try_or_return (body : Py unit) (handler : exn → Py unit)
    (rest : Py unit) : Py unit := λ w,
  match body w with
  | (Ret _, w') => rest w'
  | (Raise e, w') => handler e w'
  | (Exit c, w') => (Exit c, w')
  end.

Definition fatal (error_msg : string) : Py unit :=
  if mcp_mode g then
    send_mcp_error error_msg;;
    sys_exit 1
  else
    print error_msg.

Definition main : Py unit :=
  garmin_client ← init_api (email g) (password g);
  match garmin_client with
  | None =>
      if mcp_mode g then
        send_mcp_error "Failed to initialize Garmin Connect client";;
        sys_exit 1
      else mret tt
  | Some garmin_client =>
      (if negb (mcp_mode g)
       then print "Garmin Connect client initialized successfully."
       else mret tt);;
      try_or_return
        (for_each (λ m, call (OpConfigure m)) modules)
        (λ e, fatal ("Failed to configure modules: " +:+ exn_str e))
        (call OpFastMCP;;
         try_or_return
           (for_each (λ m, call (OpRegister m)) modules)
           (λ e, fatal ("Failed to register tools: " +:+ exn_str e))
           (call OpTool;;
            call OpRun))
  end.

(** The status the process ends with: [0] when [main] returns, the
    argument of [sys.exit], [1] after an exception nobody caught. *)
Definition exit_status (o : outcome unit) : Z :=
  match o with
  | Ret _ => 0
  | Raise _ => 1
  | Exit c => c
  end.

(** *** [list_activities] (lines 166-190) *)

Definition type_name (v : pyval) : string :=
  match v with
  | PyNone => "NoneType"
  | PyBool _ => "bool"
  | PyInt _ => "int"
  | PyStr _ => "str"
  | PyList _ => "list"
  | PyDict _ => "dict"
  end.

(** [str(v)], which is what an f-string applies to [v]. *)
Definition py_str (v : pyval) : string :=
  match v with
  | PyNone => "None"
  | PyBool true => "True"
  | PyBool false => "False"
  | PyInt n => pretty n
  | PyStr s => s
  | PyList _ | PyDict _ => py_repr env v
  end.

Fixpoint assoc (key : string) (entries : list (string * pyval)) : option pyval :=
  match entries with
  | [] => None
  | (k, v) :: rest => if String.eqb k key then Some v else assoc key rest
  end.

Definition lift {A} (r : exn + A) : Py A :=
  match r with
  | inl e => raise e
  | inr a => mret a
  end.

(** [v.get(key, dflt)] *)
Definition py_get (v : pyval) (key : string) (dflt : pyval) : exn + pyval :=
  match v with
  | PyDict entries => inr (default dflt (assoc key entries))
  | _ => inl (Exn AttributeError
                ("'" +:+ type_name v +:+ "' object has no attribute 'get'"))
  end.

Fixpoint chars (s : string) : list pyval :=
  match s with
  | EmptyString => []
  | String c s' => PyStr (String c EmptyString) :: chars s'
  end.

(** [len(v)] *)
Definition py_len (v : pyval) : exn + nat :=
  match v with
  | PyList items => inr (length items)
  | PyDict entries => inr (length entries)
  | PyStr s => inr (String.length s)
  | _ => inl (Exn TypeError
                ("object of type '" +:+ type_name v +:+ "' has no len()"))
  end.

(** What [for x in v] goes through. *)
Definition py_iter (v : pyval) : exn + list pyval :=
  match v with
  | PyList items => inr items
  | PyDict entries => inr (map (λ kv, PyStr (fst kv)) entries)
  | PyStr s => inr (chars s)
  | _ => inl (Exn TypeError ("'" +:+ type_name v +:+ "' object is not iterable"))
  end.

Definition client_get_activities (c : Garmin) (start limit : Z) : Py pyval := λ w,
  match get_activities env c start limit with
  | inl e => (Raise e, log_event (EvGetActivities start limit (Some e)) w)
  | inr v => (Ret v, log_event (EvGetActivities start limit None) w)
  end.

(** The five lines one turn of the loop adds to [result]. *)
Definition format_activity (idx : nat) (activity : pyval) : Py string :=
  name ← lift (py_get activity "activityName" (PyStr "Unknown"));
  type ← lift (py_get activity "activityType" (PyDict []));
  type_key ← lift (py_get type "typeKey" (PyStr "Unknown"));
  date ← lift (py_get activity "startTimeLocal" (PyStr "Unknown"));
  id ← lift (py_get activity "activityId" (PyStr "Unknown"));
  mret ("--- Activity " +:+ pretty idx +:+ " ---" +:+ nl
        +:+ "Activity: " +:+ py_str name +:+ nl
        +:+ "Type: " +:+ py_str type_key +:+ nl
        +:+ "Date: " +:+ py_str date +:+ nl
        +:+ "ID: " +:+ py_str id +:+ nl +:+ nl).

Fixpoint format_activities (idx : nat) (items : list pyval) (result : string)
    : Py string :=
  match items with
  | [] => mret result
  | activity :: rest =>
      block ← format_activity idx activity;
      format_activities (S idx) rest (result +:+ block)
  end.

Definition header (n : nat) : string :=
  "Last " +:+ pretty n +:+ " activities:" +:+ nl +:+ nl.

(** The body of the [try] statement. *)
Definition fetch_and_format (garmin_client : Garmin) (limit : Z) : Py string :=
  activities ← client_get_activities garmin_client 0 limit;
  if negb (truthy activities) then mret "No activities found."
  else
    n ← lift (py_len activities);
    items ← lift (py_iter activities);
    format_activities 1 items (header n).

Definition list_activities (garmin_client : Garmin) (limit : Z) : Py string :=
  try_except_Exception
    (fetch_and_format garmin_client limit)
    (λ e,
       let error_msg := "Error retrieving activities: " +:+ exn_str e in
       (if mcp_mode g then send_mcp_error error_msg else mret tt);;
       mret error_msg).

End Server.

(** The world at process start: nothing called or printed yet, and a file
    system holding [dirs], [store] and [files]. *)
Definition start (dirs : gset string) (store : gmap string session)
    (files : gmap string string) : world :=
  World [] [] dirs store files.

(** [os.path.expanduser] for a user whose home directory is [home]. *)
Definition expanduser_in (home : string) (p : string) : string :=
  match p with
  | String "~" EmptyString => home
  | String "~" (String "/" rest) => home +:+ "/" +:+ rest
  | _ => p
  end.

(** ** Classification of the logged calls *)

Definition token_store_read (ev : event) : bool :=
  match ev with EvTokenLogin _ _ => true | _ => false end.

Definition token_store_write (ev : event) : bool :=
  match ev with EvMakedirs _ _ | EvDump _ _ => true | _ => false end.

Definition portable_write (ev : event) : bool :=
  match ev with EvOpenW _ _ | EvFileWrite _ _ _ => true | _ => false end.

Definition absent_or_empty (o : option string) : Prop :=
  o = None ∨ o = Some EmptyString.

(** The notice a failure is reported with: a JSON-RPC error object in MCP
    mode, a printed line otherwise. *)
Definition notice (g : globals) (error_msg : string) : out_item :=
  if mcp_mode g then OutJson (mcp_error_response error_msg)
  else OutPrint error_msg.

(** An error of reading the token store that is neither its absence nor
    an answer of Garmin: none of the classes the handlers of [init_api]
    name.  [PermissionError] and [JSONDecodeError] are such. *)
Definition unusable_store_error (e : exn) : Prop :=
  isinstance e [FileNotFoundError; GarthHTTPError] = false
  ∧ isinstance e [GarthHTTPError; GarminConnectAuthenticationError;
                  RequestsHTTPError] = false.

(** What the password fallback leaves behind when it has gone through: the
    client bound to the new session [s], the token directory created and
    holding [s], the portable token file holding the base64 form of [s]
    and nothing else, and the confirmation printed. *)
Definition fallback_persisted (env : environment) (g : globals)
    (u p : string) (s : session) (r : outcome (option Garmin) * world) : Prop :=
  r.1 = Ret (Some (MkGarmin (Some u) (Some p) false s))
  ∧ expanduser env (tokenstore g) ∈ w_dirs r.2
  ∧ w_store r.2 !! expanduser env (tokenstore g) = Some s
  ∧ w_files r.2 !! expanduser env (tokenstore_base64 g) = Some (sess_base64 s)
  ∧ w_stdout r.2 = [OutPrint tokens_stored_msg].

(** The first exception a sequence of calls runs into. *)
Fixpoint first_fault (env : environment) (ops : list io_op) : option exn :=
  match ops with
  | [] => None
  | op :: rest =>
      match fault env op with
      | Some e => Some e
      | None => first_fault env rest
      end
  end.

(** A JSON-RPC error object, the structured form of a failure. *)
Definition is_notification (o : out_item) : Prop :=
  ∃ error_msg, o = OutJson (mcp_error_response error_msg).

(** A run that ended in failure with one structured notification, and
    nothing else, on standard output. *)
Definition single_notification (r : outcome unit * world) : Prop :=
  exit_status r.1 ≠ 0
  ∧ ∃ error_msg, w_stdout r.2 = [OutJson (mcp_error_response error_msg)].

(** An activity the loop of [list_activities] can format: a [dict] whose
    ["activityType"] entry, when there is one, is a [dict] too. *)
Definition well_formed_activity (a : pyval) : Prop :=
  match a with
  | PyDict entries =>
      match assoc "activityType" entries with
      | None | Some (PyDict _) => True
      | Some _ => False
      end
  | _ => False
  end.

(** The text begins with the header for [n] activities. *)
Definition states_count (n : nat) (text : string) : Prop :=
  ∃ body, text = header n +:+ body.

Definition null_type_activity : pyval :=
  PyDict [("activityName", PyStr "Morning Run"); ("activityType", PyNone)].

(** *** Sample collaborators *)

Definition session_1 : session :=
  Session "oauth1_token.json oauth2_token.json" "eyJvYXV0aDEiOiAiLi4uIn0=".

(** Collaborators that answer [restore] to a restoration, [login] to a
    password login and [faults op] to the other calls. *)
Definition env_of (restore login : exn + session) (faults : io_op → option exn)
    (activities : exn + pyval) : environment :=
  {| expanduser := expanduser_in "/home/u";
     token_login := λ _ _, restore;
     password_login := λ _ _ _, login;
     fault := faults;
     get_activities := λ _ _ _, activities;
     py_repr := λ _, "[...]" |}.

Definition no_fault : io_op → option exn := λ _, None.

Definition store_absent : exn :=
  Exn FileNotFoundError "[Errno 2] No such file or directory".

Definition store_denied : exn :=
  Exn PermissionError "[Errno 13] Permission denied".

(** *** The login of the library *)

(** [Garmin.login()] of the garminconnect library when no token store is
    passed, which is how [init_api] calls it on a client built with the
    credentials.  The library then takes the token store from
    [os.getenv("GARMINTOKENS")]: when the variable is set and not empty
    it loads the session from that directory ([load]) and exchanges no
    credentials; otherwise it exchanges the credentials ([exchange]).
    The variable is read here as the path of a directory, which is what
    the program uses it for on line 39. *)
Definition library_login (garmintokens : option string)
    (load : gmap string session → string → exn + session)
    (exchange : option string → option string → exn + session)
    : gmap string session → option string → option string → exn + session :=
  λ store user pw,
    if truthy_opt garmintokens
    then load store (default EmptyString garmintokens)
    else exchange user pw.

(** [garth.load(path)]: the session [garth.dump] has left in the
    directory, [FileNotFoundError] when there is none. *)
Definition load_directory (expand : string → string)
    (store : gmap string session) (path : string) : exn + session :=
  match store !! expand path with
  | Some s => inr s
  | None => inl store_absent
  end.

(** Collaborators of a process whose environment is [environ]: token
    directories are loaded as [garth.dump] left them, Garmin accepts the
    credentials with the session [fresh], and nothing else fails. *)
Definition library_env (environ : gmap string string) (fresh : session)
    : environment :=
  {| expanduser := expanduser_in "/home/u";
     token_login := load_directory (expanduser_in "/home/u");
     password_login :=
       library_login (environ !! "GARMINTOKENS")
         (load_directory (expanduser_in "/home/u")) (λ _ _, inr fresh);
     fault := no_fault;
     get_activities := λ _ _ _, inr (PyList []);
     py_repr := λ _, "[...]" |}.

(** A server started in MCP mode with credentials; [tokens] is the value
    of [GARMINTOKENS], if it is set. *)
Definition server_environ (tokens : option string) : gmap string string :=
  <[ "MCP_MODE" := "1" ]>
    (<[ "GARMIN_EMAIL" := "a@b.c" ]>
      (<[ "GARMIN_PASSWORD" := "pw" ]>
        (from_option (λ t, {[ "GARMINTOKENS" := t ]}) ∅ tokens))).

Definition session_0 : session :=
  Session "oauth1_token.json oauth2_token.json (last week)" "eyJvbGQiOiAiLi4uIn0=".

Definition makedirs_denied : io_op → option exn := λ op,
  match op with OpMakedirs => Some store_denied | _ => None end.

Definition interactive : globals := load_globals ∅.

Definition automated : globals := load_globals {[ "MCP_MODE" := "1" ]}.

(** *** Vocabulary of the further properties *)

Definition password_login_call (ev : event) : bool :=
  match ev with EvPasswordLogin _ _ _ => true | _ => false end.

(** The text is the error message of [list_activities]. *)
Definition retrieval_error (text : string) : Prop :=
  ∃ e, text = "Error retrieving activities: " +:+ exn_str e.

(** An activity [dict] that has none of the four keys the listing shows. *)
Definition lacks_shown_keys (entries : list (string * pyval)) : Prop :=
  assoc "activityName" entries = None
  ∧ assoc "activityType" entries = None
  ∧ assoc "startTimeLocal" entries = None
  ∧ assoc "activityId" entries = None.

(** The value on which [.get] fails while an activity is formatted: the
    activity itself when it is no [dict], else its ["activityType"] when
    that is present and no [dict]. *)
Definition offending (a : pyval) : option pyval :=
  match a with
  | PyDict entries =>
      match assoc "activityType" entries with
      | None | Some (PyDict _) => None
      | Some v => Some v
      end
  | _ => Some a
  end.

Definition session_expired : exn :=
  Exn GarthHTTPError "401 Client Error: Unauthorized".

Definition login_rejected : exn :=
  Exn GarminConnectAuthenticationError "Login failed".

Definition open_denied : io_op → option exn := λ op,
  match op with OpOpen => Some store_denied | _ => None end.

Definition configure_broken : io_op → option exn := λ op,
  match op with
  | OpConfigure devices => Some (Exn RuntimeError "no client")
  | _ => None
  end.

Definition runtime_broken : io_op → option exn := λ op,
  match op with OpRun => Some (Exn RuntimeError "transport closed") | _ => None end.

Definition with_credentials (mode : option string) : globals :=
  load_globals (<[ "GARMIN_EMAIL" := "a@b.c" ]>
                (<[ "GARMIN_PASSWORD" := "pw" ]>
                 (from_option (λ m, {[ "MCP_MODE" := m ]}) ∅ mode))).

Definition morning_run : pyval :=
  PyDict [("activityId", PyInt 42); ("activityName", PyStr "Morning Run");
          ("activityType", PyDict [("typeKey", PyStr "running")]);
          ("startTimeLocal", PyStr "2024-05-01 07:30:00")].

(** ** Proof support *)

Ltac unfold_py :=
  unfold init_api, password_fallback, report, send_mcp_error, try_except,
    garmin_login_tokens, garmin_login_password, os_makedirs, garth_dump,
    garth_dumps, open_w, file_write, print, stdout_write_json, effect,
    raise, mbind, py_bind, mret, py_ret in *.

(** Every way [init_api] can go, one goal each. *)
Ltac init_api_cases :=
  unfold_py; simpl in *;
  repeat (case_match; simplify_eq/=).


Ltac in_log :=
  repeat match goal with
  | H : _ ∈ [] |- _ => by apply elem_of_nil in H
  | H : _ ∈ _ :: _ |- _ => apply elem_of_cons in H as [H|H]; simplify_eq/=
  end.

Tactic Notation "unfold_main" "in" hyp(H) :=
  unfold main, try_or_return, fatal, send_mcp_error, stdout_write_json, print,
    effect, sys_exit, call, mbind, py_bind, mret, py_ret in H.

Lemma truthy_opt_false (o : option string) :
  truthy_opt o = false ↔ absent_or_empty o.
Proof.
  unfold absent_or_empty.
  destruct o as [[|c s]|]; simpl; split; intros H; try done.
  - by right.
  - by destruct H.
  - by left.
Qed.

Lemma truthy_opt_true (o : option string) :
  truthy_opt o = true ↔ ∃ s, o = Some s ∧ s ≠ EmptyString.
Proof.
  destruct o as [[|c s]|]; simpl; split; intros H; try done.
  - by destruct H as (s & [= <-] & ?).
  - by eexists.
  - by destruct H as (s & ? & ?).
Qed.

(** ** Configuration *)

(** C9: the mode flag is the truthiness of [MCP_MODE]; every non-empty
    value selects MCP (automated) mode, ["0"] and ["false"] included, and
    the interactive mode is selected exactly when the variable is unset or
    empty. *)
Theorem mcp_mode_truthiness (environ : gmap string string) :
  (mcp_mode (load_globals environ) = true
     ↔ ∃ s, environ !! "MCP_MODE" = Some s ∧ s ≠ EmptyString)
  ∧ (mcp_mode (load_globals environ) = false
     ↔ environ !! "MCP_MODE" = None ∨ environ !! "MCP_MODE" = Some EmptyString)
  ∧ mcp_mode (load_globals (<[ "MCP_MODE" := "0" ]> environ)) = true
  ∧ mcp_mode (load_globals (<[ "MCP_MODE" := "false" ]> environ)) = true.
Proof.
  unfold load_globals; cbn [mcp_mode].
  split; [apply truthy_opt_true|].
  split; [apply truthy_opt_false|].
  by rewrite !lookup_insert_eq.
Qed.

Lemma mcp_mode_truthiness_witness :
  mcp_mode (load_globals {[ "MCP_MODE" := "no" ]}) = true
  ∧ mcp_mode (load_globals ∅) = false.
Proof.
  split.
  - apply (proj1 (mcp_mode_truthiness {[ "MCP_MODE" := "no" ]})).
    exists "no". split; [reflexivity | discriminate].
  - apply (proj1 (proj2 (mcp_mode_truthiness ∅))).
    left. reflexivity.
Defined.

(** ** The bootstrap *)

(** C1: when the e-mail or the password is absent or empty, in either
    mode, [init_api] returns [None] after reporting that the credentials
    are missing, and it has called neither the network nor the file
    system: the log and the file system are as they were. *)
Theorem init_api_missing_credentials (env : environment) (g : globals)
    (email password : option string) (w : world) :
  absent_or_empty email ∨ absent_or_empty password →
  init_api env g email password w
    = (Ret None, emit (notice g missing_credentials_msg) w)
  ∧ w_log (init_api env g email password w).2 = w_log w
  ∧ w_dirs (init_api env g email password w).2 = w_dirs w
  ∧ w_store (init_api env g email password w).2 = w_store w
  ∧ w_files (init_api env g email password w).2 = w_files w.
Proof.
  intros H.
  assert (negb (truthy_opt email) || negb (truthy_opt password) = true) as Hc.
  { destruct H as [H|H]; apply truthy_opt_false in H; rewrite H; simpl; try done.
    apply orb_true_r. }
  assert (init_api env g email password w
          = (Ret None, emit (notice g missing_credentials_msg) w)) as ->.
  { unfold init_api. rewrite Hc. unfold notice. unfold_py.
    by destruct (mcp_mode g). }
  done.
Qed.

Lemma init_api_missing_credentials_witness :
  init_api (Environment (expanduser_in "/home/u")
              (λ _ _, inl (Exn FileNotFoundError "absent"))
              (λ _ _ _, inl (Exn GarthHTTPError "401"))
              (λ _, None) (λ _ _ _, inr PyNone) (λ _, EmptyString))
           (load_globals {[ "MCP_MODE" := "1" ]})
           (Some EmptyString) (Some "x") (start ∅ ∅ ∅)
  = (Ret None,
     World [] [OutJson (mcp_error_response missing_credentials_msg)] ∅ ∅ ∅).
Proof.
  refine (proj1 (init_api_missing_credentials _ _ _ _ _ _)).
  left. right. reflexivity.
Defined.

(** C2 does not hold of the code when [GARMINTOKENS] is set, although the
    comment in the MCP branch says that password authentication is always
    used.  In MCP mode with credentials, [init_api] calls [login()]
    without a token store, and the library loads the store the variable
    names.  With a session in that store the client comes back bound to
    the stored session, Garmin having accepted nothing new; with no
    session there the error of the missing store reaches the caller; so
    the outcome depends on what the store held.  Without the variable the
    same call exchanges the credentials and the client is bound to the
    fresh session. *)
Theorem mcp_mode_login_reads_garmintokens :
  mcp_mode (load_globals (server_environ (Some "/srv/tokens"))) = true
  ∧ init_api (library_env (server_environ (Some "/srv/tokens")) session_1)
      (load_globals (server_environ (Some "/srv/tokens")))
      (Some "a@b.c") (Some "pw")
      (start ∅ {[ "/srv/tokens" := session_0 ]} ∅)
    = (Ret (Some (MkGarmin (Some "a@b.c") (Some "pw") false session_0)),
       World [EvPasswordLogin (Some "a@b.c") (Some "pw") None;
              EvMakedirs "/srv/tokens" None;
              EvDump "/srv/tokens" None]
             [] {[ "/srv/tokens" ]} {[ "/srv/tokens" := session_0 ]} ∅)
  ∧ init_api (library_env (server_environ (Some "/srv/tokens")) session_1)
      (load_globals (server_environ (Some "/srv/tokens")))
      (Some "a@b.c") (Some "pw") (start ∅ ∅ ∅)
    = (Raise store_absent,
       World [EvPasswordLogin (Some "a@b.c") (Some "pw") (Some store_absent)]
             [] ∅ ∅ ∅)
  ∧ (init_api (library_env (server_environ None) session_1)
       (load_globals (server_environ None))
       (Some "a@b.c") (Some "pw")
       (start ∅ {[ "/home/u/.garminconnect" := session_0 ]} ∅)).1
    = Ret (Some (MkGarmin (Some "a@b.c") (Some "pw") false session_1)).
Proof. repeat split; vm_compute; reflexivity. Qed.

(** C3: in interactive mode, whenever the restoration of the session from
    the token store succeeds, [init_api] returns the client bound to the
    restored session, and it has written nothing: the restoration is its
    only call, and directories, token store and files are untouched. *)
Theorem interactive_restore_writes_nothing (env : environment) (g : globals)
    (email password : option string) (dirs : gset string)
    (store : gmap string session) (files : gmap string string) :
  mcp_mode g = false →
  EvTokenLogin (tokenstore g) None
    ∈ w_log (init_api env g email password (start dirs store files)).2 →
  (∃ s, token_login env store (tokenstore g) = inr s
        ∧ (init_api env g email password (start dirs store files)).1
          = Ret (Some (MkGarmin None None false s)))
  ∧ w_log (init_api env g email password (start dirs store files)).2
    = [EvTokenLogin (tokenstore g) None]
  ∧ Forall (λ ev, token_store_write ev = false ∧ portable_write ev = false)
      (w_log (init_api env g email password (start dirs store files)).2)
  ∧ w_dirs (init_api env g email password (start dirs store files)).2 = dirs
  ∧ w_store (init_api env g email password (start dirs store files)).2 = store
  ∧ w_files (init_api env g email password (start dirs store files)).2 = files.
Proof.
  intros Hmode. unfold init_api; rewrite Hmode.
  init_api_cases; intros Hin; in_log; eauto 10.
Qed.


(** C8: in MCP mode no run of [init_api] opens or writes the portable
    token file, whose content stays what it was; in any run where the
    file is opened or written, the mode is interactive, the restoration
    from the token store has failed with an error the fallback handles,
    and the password login that followed has succeeded. *)
Theorem portable_token_interactive_only (env : environment) (g : globals)
    (email password : option string) (dirs : gset string)
    (store : gmap string session) (files : gmap string string) :
  (mcp_mode g = true →
     Forall (λ ev, portable_write ev = false)
       (w_log (init_api env g email password (start dirs store files)).2)
     ∧ w_files (init_api env g email password (start dirs store files)).2 = files)
  ∧ (∀ ev,
       ev ∈ w_log (init_api env g email password (start dirs store files)).2 →
       portable_write ev = true →
       mcp_mode g = false
       ∧ (∃ e, EvTokenLogin (tokenstore g) (Some e)
                 ∈ w_log (init_api env g email password (start dirs store files)).2
               ∧ isinstance e [FileNotFoundError; GarthHTTPError] = true)
       ∧ EvPasswordLogin email password None
           ∈ w_log (init_api env g email password (start dirs store files)).2).
Proof.
  split.
  - intros Hmode. unfold init_api; rewrite Hmode.
    init_api_cases; split; try done; repeat constructor.
  - intros ev. init_api_cases; intros Hin Hw; in_log; try discriminate;
      (split; [done|split; [eexists; split; [|eassumption]|]]; set_solver).
Qed.

(** C5: in interactive mode, when the restoration fails because the store
    is there but cannot be used (a permission error, malformed content),
    [init_api] attempts no password login: the restoration is its only
    call.  The error reaches the caller as it was raised, which tells it
    from an authentication failure (reported, then [None] returned) and
    from an absent store (followed by the password login); nothing is
    printed and nothing is written. *)
Theorem interactive_unusable_store_propagates (env : environment) (g : globals)
    (u p : string) (dirs : gset string) (store : gmap string session)
    (files : gmap string string) (e : exn) :
  mcp_mode g = false → u ≠ EmptyString → p ≠ EmptyString →
  token_login env store (tokenstore g) = inl e →
  unusable_store_error e →
  init_api env g (Some u) (Some p) (start dirs store files)
    = (Raise e, World [EvTokenLogin (tokenstore g) (Some e)] [] dirs store files)
  ∧ (∀ r, EvPasswordLogin (Some u) (Some p) r
            ∉ w_log (init_api env g (Some u) (Some p) (start dirs store files)).2)
  ∧ (init_api env g (Some u) (Some p) (start dirs store files)).1 ≠ Ret None.
Proof.
  intros Hmode Hu Hp Hres [Hin Hout].
  destruct u as [|cu u]; [done|]. destruct p as [|cp p]; [done|].
  assert (init_api env g (Some (String cu u)) (Some (String cp p))
            (start dirs store files)
          = (Raise e, World [EvTokenLogin (tokenstore g) (Some e)] []
                        dirs store files)) as ->.
  { unfold init_api; rewrite Hmode. unfold_py; simpl.
    by rewrite Hres, Hin, Hout. }
  split; [done|]. split; [|done].
  intros r Hr; simpl in Hr. in_log.
Qed.

Lemma interactive_restore_writes_nothing_witness :
  w_files (init_api (env_of (inr session_1) (inl store_absent) no_fault (inr PyNone))
             interactive (Some "a@b.c") (Some "pw")
             (start ∅ ∅ {[ "/home/u/.garminconnect_base64" := "old" ]})).2
  = {[ "/home/u/.garminconnect_base64" := "old" ]}.
Proof.
  refine (proj2 (proj2 (proj2 (proj2 (proj2
    (interactive_restore_writes_nothing _ interactive _ _ _ _ _ _ _)))))).
  - reflexivity.
  - apply list_elem_of_here.
Defined.


Lemma portable_token_interactive_only_witness :
  w_files (init_api (env_of (inl store_absent) (inr session_1) no_fault (inr PyNone))
             automated (Some "a@b.c") (Some "pw")
             (start ∅ ∅ {[ "/home/u/.garminconnect_base64" := "old" ]})).2
  = {[ "/home/u/.garminconnect_base64" := "old" ]}.
Proof.
  refine (proj2 (proj1 (portable_token_interactive_only _ automated _ _ _ _ _) _)).
  reflexivity.
Defined.

Lemma interactive_unusable_store_propagates_witness :
  init_api (env_of (inl store_denied) (inr session_1) no_fault (inr PyNone))
    interactive (Some "a@b.c") (Some "pw") (start ∅ ∅ ∅)
  = (Raise store_denied,
     World [EvTokenLogin "~/.garminconnect" (Some store_denied)] [] ∅ ∅ ∅).
Proof.
  refine (proj1 (interactive_unusable_store_propagates _ interactive
                   "a@b.c" "pw" _ _ _ store_denied _ _ _ _ _)).
  - reflexivity.
  - discriminate.
  - discriminate.
  - reflexivity.
  - split; reflexivity.
Defined.

(** C4, as amended: in interactive mode, when the token store is absent,
    the password login succeeds and creating the directory, dumping the
    session, opening the portable token file and writing it all succeed,
    [init_api] returns the client bound to the new session; the token
    directory exists and holds the session; the portable token file holds
    the base64 form of the session, whatever it held before; the
    confirmation is printed. *)
Theorem interactive_fallback_persists (env : environment) (g : globals)
    (u p : string) (dirs : gset string) (store : gmap string session)
    (files : gmap string string) (e : exn) (s : session) :
  mcp_mode g = false → u ≠ EmptyString → p ≠ EmptyString →
  token_login env store (tokenstore g) = inl e →
  exn_cls e = FileNotFoundError →
  password_login env store (Some u) (Some p) = inr s →
  fault env OpMakedirs = None → fault env OpDump = None →
  fault env OpOpen = None → fault env OpWrite = None →
  fallback_persisted env g u p s
    (init_api env g (Some u) (Some p) (start dirs store files)).
Proof.
  intros Hmode Hu Hp Hres Hcls Hlogin Hmk Hdump Hopen Hwrite.
  destruct u as [|cu u]; [done|]. destruct p as [|cp p]; [done|].
  assert (isinstance e [FileNotFoundError; GarthHTTPError] = true) as Hcaught.
  { unfold isinstance. by rewrite Hcls. }
  unfold fallback_persisted, init_api; rewrite Hmode.
  unfold_py; simpl.
  rewrite Hres, Hcaught; simpl.
  rewrite Hlogin, Hmk, Hdump, Hopen, Hwrite; simpl.
  split; [done|]. split; [set_solver|].
  split; [by rewrite lookup_insert_eq|].
  split; [|done].
  by rewrite lookup_insert_eq, lookup_insert_eq.
Qed.

Lemma interactive_fallback_persists_witness :
  fallback_persisted
    (env_of (inl store_absent) (inr session_1) no_fault (inr PyNone))
    interactive "a@b.c" "pw" session_1
    (init_api (env_of (inl store_absent) (inr session_1) no_fault (inr PyNone))
       interactive (Some "a@b.c") (Some "pw")
       (start ∅ ∅ {[ "/home/u/.garminconnect_base64" := "old" ]})).
Proof.
  apply (interactive_fallback_persists _ interactive "a@b.c" "pw" _ _ _
           store_absent session_1); try reflexivity; discriminate.
Defined.

(** C4 as first stated does not hold: with the store absent and the
    password login accepted, a directory that cannot be created makes
    [init_api] raise; no handle is returned and nothing is persisted. *)
Lemma interactive_fallback_unwritable_store :
  mcp_mode interactive = false
  ∧ token_login (env_of (inl store_absent) (inr session_1) makedirs_denied (inr PyNone))
      ∅ (tokenstore interactive) = inl store_absent
  ∧ exn_cls store_absent = FileNotFoundError
  ∧ password_login (env_of (inl store_absent) (inr session_1) makedirs_denied (inr PyNone))
      ∅ (Some "a@b.c") (Some "pw") = inr session_1
  ∧ init_api (env_of (inl store_absent) (inr session_1) makedirs_denied (inr PyNone))
      interactive (Some "a@b.c") (Some "pw") (start ∅ ∅ ∅)
    = (Raise store_denied,
       World [EvTokenLogin "~/.garminconnect" (Some store_absent);
              EvPasswordLogin (Some "a@b.c") (Some "pw") None;
              EvMakedirs "/home/u/.garminconnect" (Some store_denied)]
             [] ∅ ∅ ∅)
  ∧ ¬ fallback_persisted
        (env_of (inl store_absent) (inr session_1) makedirs_denied (inr PyNone))
        interactive "a@b.c" "pw" session_1
        (init_api (env_of (inl store_absent) (inr session_1) makedirs_denied (inr PyNone))
           interactive (Some "a@b.c") (Some "pw") (start ∅ ∅ ∅)).
Proof.
  repeat split; try reflexivity.
  intros [Hret _]. vm_compute in Hret. discriminate.
Qed.

(** ** The process *)

Lemma for_each_call (env : environment) (f : module → io_op)
    (ms : list module) (w : world) :
  for_each (λ m, call env (f m)) ms w
  = (match first_fault env (map f ms) with
     | Some e => Raise e
     | None => Ret tt
     end, w).
Proof.
  induction ms as [|m ms IH]; [done|].
  cbn [for_each map first_fault].
  unfold mbind, py_bind, call at 1.
  destruct (fault env (f m)); [done|]. apply IH.
Qed.

(** What [init_api] prints in MCP mode: one notification when it returns
    [None], nothing otherwise; and it never exits. *)
Lemma init_api_mcp_stdout (env : environment) (g : globals)
    (email password : option string) (w : world) :
  mcp_mode g = true →
  match (init_api env g email password w).1 with
  | Ret None =>
      ∃ cause, w_stdout (init_api env g email password w).2
               = (w_stdout w ++ [OutJson (mcp_error_response cause)])%list
  | Ret (Some _) | Raise _ =>
      w_stdout (init_api env g email password w).2 = w_stdout w
  | Exit _ => False
  end.
Proof.
  intros Hmode. unfold init_api; rewrite Hmode.
  init_api_cases; eauto.
Qed.

(** C6, as amended: in MCP mode standard output carries structured
    notifications only, in every run.  When [init_api] returns [None]
    (credentials missing, or an authentication error it has caught) the
    process has written two notifications, the cause and then the general
    failure to initialise, and exits with status 1; when configuring the
    modules or registering their tools raises, it has written exactly one
    notification and exits with status 1. *)
Theorem mcp_mode_failure_notifications (env : environment) (g : globals)
    (dirs : gset string) (store : gmap string session)
    (files : gmap string string) :
  mcp_mode g = true →
  Forall is_notification (w_stdout (main env g (start dirs store files)).2)
  ∧ ((init_api env g (email g) (password g) (start dirs store files)).1 = Ret None →
     (main env g (start dirs store files)).1 = Exit 1
     ∧ ∃ cause,
         w_stdout (main env g (start dirs store files)).2
         = [OutJson (mcp_error_response cause);
            OutJson (mcp_error_response "Failed to initialize Garmin Connect client")])
  ∧ (∀ c e,
       (init_api env g (email g) (password g) (start dirs store files)).1
         = Ret (Some c) →
       first_fault env (map OpConfigure modules) = Some e →
       (main env g (start dirs store files)).1 = Exit 1
       ∧ w_stdout (main env g (start dirs store files)).2
         = [OutJson (mcp_error_response
                       ("Failed to configure modules: " +:+ exn_str e))])
  ∧ (∀ c e,
       (init_api env g (email g) (password g) (start dirs store files)).1
         = Ret (Some c) →
       first_fault env (map OpConfigure modules) = None →
       fault env OpFastMCP = None →
       first_fault env (map OpRegister modules) = Some e →
       (main env g (start dirs store files)).1 = Exit 1
       ∧ w_stdout (main env g (start dirs store files)).2
         = [OutJson (mcp_error_response
                       ("Failed to register tools: " +:+ exn_str e))]).
Proof.
  intros Hmode.
  pose proof (init_api_mcp_stdout env g (email g) (password g)
                (start dirs store files) Hmode) as Hinit.
  remember (main env g (start dirs store files)) as run eqn:Hrun.
  unfold main in Hrun. unfold mbind at 1, py_bind at 1 in Hrun.
  destruct (init_api env g (email g) (password g) (start dirs store files))
    as [[[c|]|e|code] w1]; cbn [fst snd] in *; rewrite ?Hmode in Hrun;
    cbn [negb] in Hrun; [| | |done].
  - (* a client *)
    unfold try_or_return at 1, mbind at 1, py_bind at 1, mret, py_ret in Hrun.
    rewrite for_each_call in Hrun.
    destruct (first_fault env (map OpConfigure modules)) as [e|] eqn:Hconf.
    { unfold_main in Hrun; rewrite Hmode in Hrun; cbn in Hrun.
      subst run; cbn; rewrite Hinit; cbn.
      repeat split; try done; try (intros; simplify_eq; done).
      repeat constructor. by eexists. }
    unfold mbind at 1, py_bind at 1, call at 1 in Hrun.
    destruct (fault env OpFastMCP) as [e|] eqn:Hfast.
    { subst run; cbn; rewrite Hinit. repeat split; try done; constructor. }
    unfold try_or_return at 1 in Hrun. rewrite for_each_call in Hrun.
    destruct (first_fault env (map OpRegister modules)) as [e|] eqn:Hreg.
    { unfold_main in Hrun; rewrite Hmode in Hrun; cbn in Hrun.
      subst run; cbn; rewrite Hinit; cbn.
      repeat split; try done; try (intros; simplify_eq; done).
      repeat constructor. by eexists. }
    unfold_main in Hrun.
    destruct (fault env OpTool), (fault env OpRun); subst run; cbn;
      rewrite Hinit; repeat split; try done; constructor.
  - (* no client *)
    destruct Hinit as [cause Hinit].
    unfold_main in Hrun; rewrite Hmode in Hrun; cbn in Hrun.
    subst run; cbn; rewrite Hinit; cbn.
    repeat split; try done; eauto.
    repeat constructor; by eexists.
  - (* an exception nobody catches *)
    subst run; cbn; rewrite Hinit. repeat split; try done; constructor.
Qed.

Lemma mcp_mode_failure_notifications_witness :
  Forall is_notification
    (w_stdout (main (env_of (inl store_absent) (inr session_1) no_fault (inr PyNone))
                 automated (start ∅ ∅ ∅)).2).
Proof.
  refine (proj1 (mcp_mode_failure_notifications _ automated _ _ _ _)).
  reflexivity.
Defined.

(** C6 as first stated does not hold: in MCP mode with no credentials the
    process exits with status 1 after two notifications, not one. *)
Lemma mcp_mode_missing_credentials_two_notifications :
  mcp_mode automated = true
  ∧ main (env_of (inl store_absent) (inr session_1) no_fault (inr PyNone))
      automated (start ∅ ∅ ∅)
    = (Exit 1,
       World []
         [OutJson (mcp_error_response missing_credentials_msg);
          OutJson (mcp_error_response "Failed to initialize Garmin Connect client")]
         ∅ ∅ ∅)
  ∧ ¬ single_notification
        (main (env_of (inl store_absent) (inr session_1) no_fault (inr PyNone))
           automated (start ∅ ∅ ∅)).
Proof.
  repeat split; try reflexivity.
  intros [_ [msg Hout]]. vm_compute in Hout. discriminate.
Qed.

(** ** The activity listing *)

Lemma append_assoc (a b c : string) : (a +:+ b) +:+ c = a +:+ (b +:+ c).
Proof.
  induction a as [|x a IH]; [done|].
  change (String x ((a +:+ b) +:+ c) = String x (a +:+ (b +:+ c))).
  by rewrite IH.
Qed.

Lemma append_empty_r (a : string) : a +:+ EmptyString = a.
Proof.
  induction a as [|x a IH]; [done|].
  change (String x (a +:+ EmptyString) = String x a).
  by rewrite IH.
Qed.

Lemma format_activity_well_formed (env : environment) (idx : nat)
    (a : pyval) (w : world) :
  well_formed_activity a →
  ∃ block, format_activity env idx a w = (Ret block, w).
Proof.
  destruct a as [| | | | |entries]; try done. intros Hwf.
  unfold format_activity, mbind, py_bind, lift, mret, py_ret; cbn.
  cbn in Hwf.
  destruct (assoc "activityType" entries) as [[]|]; try done; cbn; eauto.
Qed.

Lemma format_activities_well_formed (env : environment) (items : list pyval) :
  Forall well_formed_activity items →
  ∀ (idx : nat) (result : string) (w : world),
    ∃ body, format_activities env idx items result w = (Ret (result +:+ body), w).
Proof.
  induction 1 as [|a items Ha _ IH]; intros idx result w.
  - exists EmptyString. by rewrite append_empty_r.
  - destruct (format_activity_well_formed env idx a w Ha) as [block Hblock].
    destruct (IH (S idx) (result +:+ block) w) as [body Hbody].
    exists (block +:+ body).
    cbn [format_activities]. unfold mbind, py_bind.
    rewrite Hblock, Hbody. by rewrite append_assoc.
Qed.

(** Formatting never leaves through [sys.exit]. *)
Lemma format_activity_no_exit (env : environment) (idx : nat) (a : pyval)
    (w : world) (code : Z) :
  (format_activity env idx a w).1 ≠ Exit code.
Proof.
  unfold format_activity, mbind, py_bind, lift, raise, mret, py_ret, py_get.
  repeat (case_match; simplify_eq/=); done.
Qed.

Lemma format_activities_no_exit (env : environment) (items : list pyval) :
  ∀ (idx : nat) (result : string) (w : world) (code : Z),
    (format_activities env idx items result w).1 ≠ Exit code.
Proof.
  induction items as [|a items IH]; intros idx result w code; [done|].
  cbn [format_activities]. unfold mbind, py_bind.
  pose proof (format_activity_no_exit env idx a w) as Hfa.
  destruct (format_activity env idx a w) as [[block|e|c] w1]; cbn in *.
  - apply IH.
  - done.
  - by destruct (Hfa c).
Qed.

Lemma fetch_and_format_no_exit (env : environment) (c : Garmin) (limit : Z)
    (w : world) (code : Z) :
  (fetch_and_format env c limit w).1 ≠ Exit code.
Proof.
  unfold fetch_and_format, client_get_activities.
  unfold mbind at 1, py_bind at 1.
  destruct (get_activities env c 0 limit) as [e|v]; [done|].
  destruct (negb (truthy v)); [done|].
  unfold mbind, py_bind, lift, raise, mret, py_ret.
  destruct v; cbn; try done; apply format_activities_no_exit.
Qed.

(** C10, as amended: [list_activities] always returns a string, for every
    [limit] and whatever [get_activities] does.  The string is exactly
    [No activities found.] when the result of [get_activities] is empty;
    it is [Error retrieving activities: ] followed by the text of the
    exception when [get_activities] raises; it begins with the header
    [Last N activities:] when [get_activities] returns a list of [N]
    activities, [N] positive, each of them well formed. *)
Theorem list_activities_total (env : environment) (g : globals)
    (c : Garmin) (limit : Z) (w : world) :
  ∃ text,
    (list_activities env g c limit w).1 = Ret text
    ∧ (∀ v, get_activities env c 0 limit = inr v → truthy v = false →
            text = "No activities found.")
    ∧ (∀ e, get_activities env c 0 limit = inl e →
            text = "Error retrieving activities: " +:+ exn_str e)
    ∧ (∀ items, get_activities env c 0 limit = inr (PyList items) →
                items ≠ [] → Forall well_formed_activity items →
                states_count (length items) text).
Proof.
  pose proof (fetch_and_format_no_exit env c limit w) as Hexit.
  assert (∀ v, get_activities env c 0 limit = inr v → truthy v = false →
               (fetch_and_format env c limit w).1 = Ret "No activities found.")
    as Hempty.
  { intros v Hget Hv. unfold fetch_and_format, client_get_activities.
    unfold mbind, py_bind. by rewrite Hget, Hv. }
  assert (∀ e, get_activities env c 0 limit = inl e →
               (fetch_and_format env c limit w).1 = Raise e) as Hraise.
  { intros e Hget. unfold fetch_and_format, client_get_activities.
    unfold mbind, py_bind. by rewrite Hget. }
  assert (∀ items, get_activities env c 0 limit = inr (PyList items) →
                   items ≠ [] → Forall well_formed_activity items →
                   ∃ body, (fetch_and_format env c limit w).1
                           = Ret (header (length items) +:+ body)) as Hlist.
  { intros items Hget Hne Hwf. unfold fetch_and_format, client_get_activities.
    unfold mbind at 1, py_bind at 1. rewrite Hget.
    destruct items as [|a items]; [done|]. cbn [truthy negb py_len py_iter lift].
    unfold mbind, py_bind, mret, py_ret.
    destruct (format_activities_well_formed env (a :: items) Hwf 1%nat
                (header (length (a :: items)))
                (log_event (EvGetActivities 0 limit None) w)) as [body Hbody].
    exists body. by rewrite Hbody. }
  unfold list_activities, try_except_Exception.
  destruct (fetch_and_format env c limit w) as [[text|e|code] w1];
    cbn [fst] in *.
  - exists text. split; [done|]. split; [|split].
    + intros v Hget Hv. specialize (Hempty v Hget Hv). by simplify_eq.
    + intros e Hget. specialize (Hraise e Hget). by simplify_eq.
    + intros items Hget Hne Hwf.
      destruct (Hlist items Hget Hne Hwf) as [body Hbody].
      exists body. by simplify_eq.
  - exists ("Error retrieving activities: " +:+ exn_str e). split; [|split; [|split]].
    + unfold send_mcp_error, stdout_write_json, effect, mbind, py_bind, mret, py_ret.
      by destruct (mcp_mode g).
    + intros v Hget Hv. specialize (Hempty v Hget Hv). by simplify_eq.
    + intros e' Hget. specialize (Hraise e' Hget). by simplify_eq.
    + intros items Hget Hne Hwf.
      destruct (Hlist items Hget Hne Hwf) as [body Hbody]. by simplify_eq.
  - by destruct (Hexit code).
Qed.

Lemma list_activities_total_witness :
  ∃ text,
    (list_activities
       (env_of (inr session_1) (inr session_1) no_fault (inr (PyList [])))
       interactive (MkGarmin None None false session_1) 5 (start ∅ ∅ ∅)).1
    = Ret text
    ∧ text = "No activities found.".
Proof.
  destruct (list_activities_total
              (env_of (inr session_1) (inr session_1) no_fault (inr (PyList [])))
              interactive (MkGarmin None None false session_1) 5 (start ∅ ∅ ∅))
    as (text & Hret & Hempty & _).
  exists text. split; [exact Hret|].
  apply (Hempty (PyList [])); reflexivity.
Defined.

(** C10 as first stated does not hold: one activity is returned, its
    ["activityType"] is [None], and the result is the error message, which
    does not state the count. *)
Lemma list_activities_null_type :
  get_activities
    (env_of (inr session_1) (inr session_1) no_fault
       (inr (PyList [null_type_activity])))
    (MkGarmin None None false session_1) 0 5
  = inr (PyList [null_type_activity])
  ∧ (list_activities
       (env_of (inr session_1) (inr session_1) no_fault
          (inr (PyList [null_type_activity])))
       interactive (MkGarmin None None false session_1) 5 (start ∅ ∅ ∅)).1
    = Ret "Error retrieving activities: 'NoneType' object has no attribute 'get'"
  ∧ ¬ states_count 1
        "Error retrieving activities: 'NoneType' object has no attribute 'get'".
Proof.
  repeat split; try reflexivity.
  intros [body Hbody]. vm_compute in Hbody. discriminate.
Qed.

(** ** Further properties of the configuration *)

(** X1: the two token paths are never empty: each is the value of its
    environment variable when that is set and not empty, and the default
    under the home directory when it is unset or empty. *)
Theorem token_paths_defaults (environ : gmap string string) :
  tokenstore (load_globals environ) ≠ EmptyString
  ∧ tokenstore_base64 (load_globals environ) ≠ EmptyString
  ∧ (∀ s, environ !! "GARMINTOKENS" = Some s → s ≠ EmptyString →
          tokenstore (load_globals environ) = s)
  ∧ (absent_or_empty (environ !! "GARMINTOKENS") →
     tokenstore (load_globals environ) = "~/.garminconnect")
  ∧ (∀ s, environ !! "GARMINTOKENS_BASE64" = Some s → s ≠ EmptyString →
          tokenstore_base64 (load_globals environ) = s)
  ∧ (absent_or_empty (environ !! "GARMINTOKENS_BASE64") →
     tokenstore_base64 (load_globals environ) = "~/.garminconnect_base64").
Proof.
  unfold load_globals, absent_or_empty; cbn [tokenstore tokenstore_base64].
  repeat split.
  - by destruct (environ !! "GARMINTOKENS") as [[|]|].
  - by destruct (environ !! "GARMINTOKENS_BASE64") as [[|]|].
  - intros s -> Hs. by destruct s.
  - by intros [->| ->].
  - intros s -> Hs. by destruct s.
  - by intros [->| ->].
Qed.

Lemma token_paths_defaults_witness :
  tokenstore (load_globals {[ "GARMINTOKENS" := "/srv/tokens" ]}) = "/srv/tokens"
  ∧ tokenstore (load_globals {[ "GARMINTOKENS" := EmptyString ]}) = "~/.garminconnect".
Proof.
  split.
  - apply (proj1 (proj2 (proj2 (token_paths_defaults _))) "/srv/tokens");
      [reflexivity | discriminate].
  - apply (proj1 (proj2 (proj2 (proj2 (token_paths_defaults _))))).
    right; reflexivity.
Defined.

(** ** Further properties of the bootstrap *)

(** X2: in either mode, when the password login is reached and raises one
    of the three errors [init_api] catches, [init_api] returns [None]
    after one notice, [Authentication error: ] followed by the text of the
    error, and directories, token store and files are as they were. *)
Theorem init_api_authentication_failure (env : environment) (g : globals)
    (u p : string) (dirs : gset string) (store : gmap string session)
    (files : gmap string string) (e : exn) :
  u ≠ EmptyString → p ≠ EmptyString →
  (mcp_mode g = true
   ∨ ∃ e0, token_login env store (tokenstore g) = inl e0
           ∧ isinstance e0 [FileNotFoundError; GarthHTTPError] = true) →
  password_login env store (Some u) (Some p) = inl e →
  isinstance e [GarthHTTPError; GarminConnectAuthenticationError;
                RequestsHTTPError] = true →
  (init_api env g (Some u) (Some p) (start dirs store files)).1 = Ret None
  ∧ w_stdout (init_api env g (Some u) (Some p) (start dirs store files)).2
    = [notice g ("Authentication error: " +:+ exn_str e)]
  ∧ w_dirs (init_api env g (Some u) (Some p) (start dirs store files)).2 = dirs
  ∧ w_store (init_api env g (Some u) (Some p) (start dirs store files)).2 = store
  ∧ w_files (init_api env g (Some u) (Some p) (start dirs store files)).2 = files.
Proof.
  intros Hu Hp Hreach Hlogin Hcaught.
  destruct u as [|cu u]; [done|]. destruct p as [|cp p]; [done|].
  unfold init_api, notice. cbn [truthy_opt truthy_str negb orb].
  destruct (mcp_mode g) eqn:Hmode.
  - unfold_py; cbn. rewrite Hlogin, Hcaught, Hmode. done.
  - destruct Hreach as [?|(e0 & Hres & Hin)]; [done|].
    unfold_py; cbn. rewrite Hres, Hin; cbn. rewrite Hlogin, Hcaught, Hmode. done.
Qed.

Lemma init_api_authentication_failure_witness :
  w_stdout (init_api (env_of (inl store_absent) (inl login_rejected) no_fault
                        (inr PyNone))
              interactive (Some "a@b.c") (Some "pw") (start ∅ ∅ ∅)).2
  = [OutPrint "Authentication error: Login failed"].
Proof.
  refine (proj1 (proj2 (init_api_authentication_failure _ interactive
                          "a@b.c" "pw" _ _ _ login_rejected _ _ _ _ _))).
  - discriminate.
  - discriminate.
  - right. exists store_absent. split; reflexivity.
  - reflexivity.
  - reflexivity.
Defined.

(** X3: in interactive mode, a restoration that raises
    [GarminConnectAuthenticationError] or the HTTP error of [requests] is
    not followed by the password fallback: [init_api] prints
    [Authentication error: ] with the text of the error and returns
    [None]; the restoration is its only call and nothing is written. *)
Theorem interactive_restore_rejected (env : environment) (g : globals)
    (u p : string) (dirs : gset string) (store : gmap string session)
    (files : gmap string string) (e : exn) :
  mcp_mode g = false → u ≠ EmptyString → p ≠ EmptyString →
  token_login env store (tokenstore g) = inl e →
  isinstance e [GarminConnectAuthenticationError; RequestsHTTPError] = true →
  init_api env g (Some u) (Some p) (start dirs store files)
  = (Ret None,
     World [EvTokenLogin (tokenstore g) (Some e)]
           [OutPrint ("Authentication error: " +:+ exn_str e)]
           dirs store files).
Proof.
  intros Hmode Hu Hp Hres Hcls.
  destruct u as [|cu u]; [done|]. destruct p as [|cp p]; [done|].
  assert (isinstance e [FileNotFoundError; GarthHTTPError] = false
          ∧ isinstance e [GarthHTTPError; GarminConnectAuthenticationError;
                          RequestsHTTPError] = true) as [Hin Hout].
  { unfold isinstance in *. destruct e as [[] msg]; cbn in *; done. }
  unfold init_api; rewrite Hmode. unfold_py; cbn.
  by rewrite Hres, Hin, Hout, Hmode.
Qed.

Lemma interactive_restore_rejected_witness :
  init_api (env_of (inl login_rejected) (inr session_1) no_fault (inr PyNone))
    interactive (Some "a@b.c") (Some "pw") (start ∅ ∅ ∅)
  = (Ret None,
     World [EvTokenLogin "~/.garminconnect" (Some login_rejected)]
           [OutPrint "Authentication error: Login failed"] ∅ ∅ ∅).
Proof.
  apply (interactive_restore_rejected _ interactive "a@b.c" "pw" _ _ _
           login_rejected); try reflexivity; discriminate.
Defined.

(** X4: in interactive mode, a restoration that raises [GarthHTTPError]
    (Garmin refuses the stored session) is followed by the same fallback
    as an absent store; when the login and the four file system calls
    succeed, the calls are made in this order: restoration, password
    login, directory creation, dump of the session, opening of the
    portable token file, writing it; and the new session is persisted. *)
Theorem interactive_expired_session_falls_back (env : environment) (g : globals)
    (u p : string) (dirs : gset string) (store : gmap string session)
    (files : gmap string string) (e : exn) (s : session) :
  mcp_mode g = false → u ≠ EmptyString → p ≠ EmptyString →
  token_login env store (tokenstore g) = inl e →
  exn_cls e = GarthHTTPError →
  password_login env store (Some u) (Some p) = inr s →
  fault env OpMakedirs = None → fault env OpDump = None →
  fault env OpOpen = None → fault env OpWrite = None →
  fallback_persisted env g u p s
    (init_api env g (Some u) (Some p) (start dirs store files))
  ∧ w_log (init_api env g (Some u) (Some p) (start dirs store files)).2
    = [EvTokenLogin (tokenstore g) (Some e);
       EvPasswordLogin (Some u) (Some p) None;
       EvMakedirs (expanduser env (tokenstore g)) None;
       EvDump (tokenstore g) None;
       EvOpenW (expanduser env (tokenstore_base64 g)) None;
       EvFileWrite (expanduser env (tokenstore_base64 g)) (sess_base64 s) None].
Proof.
  intros Hmode Hu Hp Hres Hcls Hlogin Hmk Hdump Hopen Hwrite.
  destruct u as [|cu u]; [done|]. destruct p as [|cp p]; [done|].
  assert (isinstance e [FileNotFoundError; GarthHTTPError] = true) as Hcaught.
  { unfold isinstance. by rewrite Hcls. }
  unfold fallback_persisted, init_api; rewrite Hmode.
  unfold_py; simpl.
  rewrite Hres, Hcaught; simpl.
  rewrite Hlogin, Hmk, Hdump, Hopen, Hwrite; simpl.
  repeat split; try done.
  - set_solver.
  - by rewrite lookup_insert_eq.
  - by rewrite lookup_insert_eq, lookup_insert_eq.
Qed.

Lemma interactive_expired_session_falls_back_witness :
  w_log (init_api (env_of (inl session_expired) (inr session_1) no_fault (inr PyNone))
           interactive (Some "a@b.c") (Some "pw") (start ∅ ∅ ∅)).2
  = [EvTokenLogin "~/.garminconnect" (Some session_expired);
     EvPasswordLogin (Some "a@b.c") (Some "pw") None;
     EvMakedirs "/home/u/.garminconnect" None;
     EvDump "~/.garminconnect" None;
     EvOpenW "/home/u/.garminconnect_base64" None;
     EvFileWrite "/home/u/.garminconnect_base64" (sess_base64 session_1) None].
Proof.
  refine (proj2 (interactive_expired_session_falls_back _ interactive
                   "a@b.c" "pw" _ _ _ session_expired session_1
                   _ _ _ _ _ _ _ _ _ _)); try reflexivity; discriminate.
Defined.

(** X5: in MCP mode, when the password login and the two writes of the
    token store succeed, [init_api] returns the client bound to the new
    session after exactly three calls (login, directory creation, dump);
    the token directory exists and holds the session, whatever it held
    before; nothing is printed and no file is touched. *)
Theorem mcp_mode_login_persists (env : environment) (g : globals)
    (u p : string) (dirs : gset string) (store : gmap string session)
    (files : gmap string string) (s : session) :
  mcp_mode g = true → u ≠ EmptyString → p ≠ EmptyString →
  password_login env store (Some u) (Some p) = inr s →
  fault env OpMakedirs = None → fault env OpDump = None →
  init_api env g (Some u) (Some p) (start dirs store files)
  = (Ret (Some (MkGarmin (Some u) (Some p) false s)),
     World [EvPasswordLogin (Some u) (Some p) None;
            EvMakedirs (expanduser env (tokenstore g)) None;
            EvDump (tokenstore g) None]
           []
           ({[ expanduser env (tokenstore g) ]} ∪ dirs)
           (<[ expanduser env (tokenstore g) := s ]> store)
           files).
Proof.
  intros Hmode Hu Hp Hlogin Hmk Hdump.
  destruct u as [|cu u]; [done|]. destruct p as [|cp p]; [done|].
  unfold init_api; rewrite Hmode. unfold_py; simpl.
  by rewrite Hlogin, Hmk, Hdump.
Qed.

Lemma mcp_mode_login_persists_witness :
  w_store (init_api (env_of (inl store_absent) (inr session_1) no_fault (inr PyNone))
             automated (Some "a@b.c") (Some "pw")
             (start ∅ {[ "/home/u/.garminconnect" := Session "old" "b2xk" ]} ∅)).2
    !! "/home/u/.garminconnect"
  = Some session_1.
Proof.
  rewrite (mcp_mode_login_persists _ automated "a@b.c" "pw" _ _ _ session_1);
    try reflexivity; discriminate.
Defined.

(** X6: [init_api] never retries: in every run, in both modes, it makes at
    most one restoration from the token store, at most one password login
    and at most six calls in all. *)
Theorem init_api_never_retries (env : environment) (g : globals)
    (email password : option string) (dirs : gset string)
    (store : gmap string session) (files : gmap string string) :
  (length (filter (λ ev, token_store_read ev = true)
             (w_log (init_api env g email password (start dirs store files)).2))
   ≤ 1)%nat
  ∧ (length (filter (λ ev, password_login_call ev = true)
               (w_log (init_api env g email password (start dirs store files)).2))
     ≤ 1)%nat
  ∧ (length (w_log (init_api env g email password (start dirs store files)).2)
     ≤ 6)%nat.
Proof.
  init_api_cases; cbn; repeat split; lia.
Qed.

(** X7: [init_api] never leaves through [sys.exit].  When it returns
    [None] it has reported exactly one notice; when it returns a client,
    the session of the client is the one a successful restoration or a
    successful password login has just returned; when it raises, it has
    printed nothing. *)
Theorem init_api_outcomes (env : environment) (g : globals)
    (email password : option string) (dirs : gset string)
    (store : gmap string session) (files : gmap string string) :
  match (init_api env g email password (start dirs store files)).1 with
  | Ret None =>
      ∃ error_msg,
        w_stdout (init_api env g email password (start dirs store files)).2
        = [notice g error_msg]
  | Ret (Some c) =>
      (EvTokenLogin (tokenstore g) None
         ∈ w_log (init_api env g email password (start dirs store files)).2
       ∧ token_login env store (tokenstore g) = inr (garth c))
      ∨ (EvPasswordLogin email password None
           ∈ w_log (init_api env g email password (start dirs store files)).2
         ∧ password_login env store email password = inr (garth c))
  | Raise _ =>
      w_stdout (init_api env g email password (start dirs store files)).2 = []
  | Exit _ => False
  end.
Proof.
  unfold notice.
  init_api_cases; eauto; try (left; split; [set_solver|done]);
    try (right; split; [set_solver|done]).
Qed.

(** X8: persistence is not atomic.  In interactive mode, when the fallback
    login and the dump of the session have succeeded and opening the
    portable token file raises an error [init_api] does not catch, the
    error reaches the caller, no client is returned and nothing is
    printed, while the token store already holds the new session; the
    files are as they were. *)
Theorem interactive_portable_open_fails (env : environment) (g : globals)
    (u p : string) (dirs : gset string) (store : gmap string session)
    (files : gmap string string) (e0 e : exn) (s : session) :
  mcp_mode g = false → u ≠ EmptyString → p ≠ EmptyString →
  token_login env store (tokenstore g) = inl e0 →
  isinstance e0 [FileNotFoundError; GarthHTTPError] = true →
  password_login env store (Some u) (Some p) = inr s →
  fault env OpMakedirs = None → fault env OpDump = None →
  fault env OpOpen = Some e →
  isinstance e [GarthHTTPError; GarminConnectAuthenticationError;
                RequestsHTTPError] = false →
  (init_api env g (Some u) (Some p) (start dirs store files)).1 = Raise e
  ∧ w_store (init_api env g (Some u) (Some p) (start dirs store files)).2
      !! expanduser env (tokenstore g) = Some s
  ∧ w_files (init_api env g (Some u) (Some p) (start dirs store files)).2 = files
  ∧ w_stdout (init_api env g (Some u) (Some p) (start dirs store files)).2 = [].
Proof.
  intros Hmode Hu Hp Hres Hin Hlogin Hmk Hdump Hopen Hout.
  destruct u as [|cu u]; [done|]. destruct p as [|cp p]; [done|].
  unfold init_api; rewrite Hmode. unfold_py; simpl.
  rewrite Hres, Hin; simpl.
  rewrite Hlogin, Hmk, Hdump, Hopen, Hout; simpl.
  repeat split; try done. by rewrite lookup_insert_eq.
Qed.

Lemma interactive_portable_open_fails_witness :
  (init_api (env_of (inl store_absent) (inr session_1) open_denied (inr PyNone))
     interactive (Some "a@b.c") (Some "pw") (start ∅ ∅ ∅)).1
  = Raise store_denied.
Proof.
  refine (proj1 (interactive_portable_open_fails _ interactive "a@b.c" "pw"
                   _ _ _ store_absent store_denied session_1
                   _ _ _ _ _ _ _ _ _ _)); try reflexivity; discriminate.
Defined.

(** ** Further properties of the process *)

(** [main], one case for each way its steps can end. *)
Lemma main_run (env : environment) (g : globals) (w : world) :
  main env g w
  = match init_api env g (email g) (password g) w with
    | (Ret None, w1) =>
        if mcp_mode g
        then (Exit 1, emit (OutJson (mcp_error_response
                                       "Failed to initialize Garmin Connect client")) w1)
        else (Ret tt, w1)
    | (Ret (Some _), w1) =>
        let w2 :=
          if mcp_mode g then w1
          else emit (OutPrint "Garmin Connect client initialized successfully.") w1 in
        match first_fault env (map OpConfigure modules) with
        | Some e => fatal g ("Failed to configure modules: " +:+ exn_str e) w2
        | None =>
            match fault env OpFastMCP with
            | Some e => (Raise e, w2)
            | None =>
                match first_fault env (map OpRegister modules) with
                | Some e => fatal g ("Failed to register tools: " +:+ exn_str e) w2
                | None =>
                    match fault env OpTool with
                    | Some e => (Raise e, w2)
                    | None =>
                        match fault env OpRun with
                        | Some e => (Raise e, w2)
                        | None => (Ret tt, w2)
                        end
                    end
                end
            end
        end
    | (Raise e, w1) => (Raise e, w1)
    | (Exit code, w1) => (Exit code, w1)
    end.
Proof.
  unfold main. unfold mbind at 1, py_bind at 1.
  destruct (init_api env g (email g) (password g) w) as [[[c|]|e|code] w1];
    [| |done|done].
  - unfold mbind at 1, py_bind at 1.
    assert ((if negb (mcp_mode g)
             then print "Garmin Connect client initialized successfully."
             else mret ()) w1
            = (Ret tt,
               if mcp_mode g then w1
               else emit (OutPrint "Garmin Connect client initialized successfully.") w1))
      as ->.
    { by destruct (mcp_mode g). }
    cbv zeta.
    unfold try_or_return at 1. rewrite for_each_call.
    destruct (first_fault env (map OpConfigure modules)); [done|].
    unfold mbind at 1, py_bind at 1, call at 1.
    destruct (fault env OpFastMCP); [done|].
    unfold try_or_return at 1. rewrite for_each_call.
    destruct (first_fault env (map OpRegister modules)); [done|].
    unfold mbind, py_bind, call.
    by destruct (fault env OpTool), (fault env OpRun).
  - destruct (mcp_mode g) eqn:Hmode; [|done].
    unfold send_mcp_error, stdout_write_json, effect, sys_exit, mbind, py_bind.
    by rewrite Hmode.
Qed.

Lemma fatal_run (g : globals) (error_msg : string) (w : world) :
  fatal g error_msg w
  = if mcp_mode g
    then (Exit 1, emit (OutJson (mcp_error_response error_msg)) w)
    else (Ret tt, emit (OutPrint error_msg) w).
Proof.
  unfold fatal, send_mcp_error, stdout_write_json, print, effect, sys_exit,
    mbind, py_bind.
  by destruct (mcp_mode g).
Qed.

Lemma init_api_raise_silent (env : environment) (g : globals)
    (email password : option string) (dirs : gset string)
    (store : gmap string session) (files : gmap string string) (e : exn) :
  (init_api env g email password (start dirs store files)).1 = Raise e →
  w_stdout (init_api env g email password (start dirs store files)).2 = [].
Proof. init_api_cases; done. Qed.

Lemma init_api_no_credentials (env : environment) (g : globals)
    (email password : option string) (w : world) :
  absent_or_empty email ∨ absent_or_empty password →
  init_api env g email password w
  = (Ret None, emit (notice g missing_credentials_msg) w).
Proof.
  intros H.
  assert (negb (truthy_opt email) || negb (truthy_opt password) = true) as Hc.
  { destruct H as [H|H]; apply truthy_opt_false in H; rewrite H; simpl; try done.
    apply orb_true_r. }
  unfold init_api. rewrite Hc. unfold notice. unfold_py.
  by destruct (mcp_mode g).
Qed.

(** X10: in interactive mode, when [init_api] returns [None], [main]
    returns at once: the process ends with status 0 and prints nothing
    after the notice of [init_api]. *)
Theorem interactive_bootstrap_failure_returns (env : environment) (g : globals)
    (w : world) :
  mcp_mode g = false →
  (init_api env g (email g) (password g) w).1 = Ret None →
  main env g w = (Ret tt, (init_api env g (email g) (password g) w).2)
  ∧ exit_status (main env g w).1 = 0.
Proof.
  intros Hmode Hnone. rewrite main_run.
  destruct (init_api env g (email g) (password g) w) as [r w1];
    cbn [fst snd] in *; subst r. by rewrite Hmode.
Qed.

Lemma interactive_bootstrap_failure_returns_witness :
  exit_status
    (main (env_of (inl store_absent) (inl login_rejected) no_fault (inr PyNone))
       (with_credentials None) (start ∅ ∅ ∅)).1 = 0.
Proof.
  refine (proj2 (interactive_bootstrap_failure_returns _ (with_credentials None)
                   _ _ _)); reflexivity.
Defined.

(** X11: an exception [init_api] does not catch is not caught by [main]
    either: in both modes the process ends with status 1, and standard
    output is empty, without any notification. *)
Theorem bootstrap_exception_crashes (env : environment) (g : globals)
    (dirs : gset string) (store : gmap string session)
    (files : gmap string string) (e : exn) :
  (init_api env g (email g) (password g) (start dirs store files)).1 = Raise e →
  (main env g (start dirs store files)).1 = Raise e
  ∧ exit_status (main env g (start dirs store files)).1 = 1
  ∧ w_stdout (main env g (start dirs store files)).2 = [].
Proof.
  intros Hraise.
  pose proof (init_api_raise_silent env g _ _ dirs store files e Hraise) as Hout.
  rewrite main_run.
  destruct (init_api env g (email g) (password g) (start dirs store files))
    as [r w1]; cbn [fst snd] in *; subst r. done.
Qed.

Lemma bootstrap_exception_crashes_witness :
  w_stdout
    (main (env_of (inl store_absent)
             (inl (Exn GarminConnectConnectionError "timed out"))
             no_fault (inr PyNone))
       (with_credentials (Some "1")) (start ∅ ∅ ∅)).2 = [].
Proof.
  refine (proj2 (proj2 (bootstrap_exception_crashes _ (with_credentials (Some "1"))
                          _ _ _ (Exn GarminConnectConnectionError "timed out") _))).
  reflexivity.
Defined.

(** X12: when [init_api] returns a client and no call into the modules or
    the MCP runtime raises, [main] returns and the process ends with
    status 0; in interactive mode it has printed the line that the client
    is initialised after the output of [init_api], in MCP mode it has
    printed nothing of its own. *)
Theorem main_serves (env : environment) (g : globals) (w : world) (c : Garmin) :
  (init_api env g (email g) (password g) w).1 = Ret (Some c) →
  first_fault env (map OpConfigure modules) = None →
  fault env OpFastMCP = None →
  first_fault env (map OpRegister modules) = None →
  fault env OpTool = None → fault env OpRun = None →
  (main env g w).1 = Ret tt
  ∧ exit_status (main env g w).1 = 0
  ∧ w_stdout (main env g w).2
    = (w_stdout (init_api env g (email g) (password g) w).2
       ++ if mcp_mode g then []
          else [OutPrint "Garmin Connect client initialized successfully."])%list.
Proof.
  intros Hinit Hconf Hfast Hreg Htool Hrun. rewrite main_run.
  destruct (init_api env g (email g) (password g) w) as [r w1];
    cbn [fst snd] in *; subst r.
  rewrite Hconf, Hfast, Hreg, Htool, Hrun.
  destruct (mcp_mode g); cbn; by rewrite ?app_nil_r.
Qed.

Lemma main_serves_witness :
  w_stdout
    (main (env_of (inr session_1) (inr session_1) no_fault (inr PyNone))
       (with_credentials None) (start ∅ ∅ ∅)).2
  = [OutPrint "Garmin Connect client initialized successfully."].
Proof.
  refine (proj2 (proj2 (main_serves _ (with_credentials None) _
                          (MkGarmin None None false session_1) _ _ _ _ _ _)));
    reflexivity.
Defined.

(** X13: in interactive mode, when configuring the modules raises (or,
    the modules configured and the application created, registering the
    tools raises), [main] prints the failure as plain text after the line
    that the client is initialised, and returns: the process ends with
    status 0. *)
Theorem interactive_configuration_failure (env : environment) (g : globals)
    (w : world) (c : Garmin) (e : exn) :
  mcp_mode g = false →
  (init_api env g (email g) (password g) w).1 = Ret (Some c) →
  (first_fault env (map OpConfigure modules) = Some e →
   (main env g w).1 = Ret tt
   ∧ w_stdout (main env g w).2
     = (w_stdout (init_api env g (email g) (password g) w).2
        ++ [OutPrint "Garmin Connect client initialized successfully.";
            OutPrint ("Failed to configure modules: " +:+ exn_str e)])%list)
  ∧ (first_fault env (map OpConfigure modules) = None →
     fault env OpFastMCP = None →
     first_fault env (map OpRegister modules) = Some e →
     (main env g w).1 = Ret tt
     ∧ w_stdout (main env g w).2
       = (w_stdout (init_api env g (email g) (password g) w).2
          ++ [OutPrint "Garmin Connect client initialized successfully.";
              OutPrint ("Failed to register tools: " +:+ exn_str e)])%list).
Proof.
  intros Hmode Hinit. rewrite main_run.
  destruct (init_api env g (email g) (password g) w) as [r w1];
    cbn [fst snd] in *; subst r. rewrite Hmode; cbv zeta.
  split.
  - intros ->. rewrite fatal_run, Hmode; cbn. by rewrite <- app_assoc.
  - intros -> -> ->. rewrite fatal_run, Hmode; cbn. by rewrite <- app_assoc.
Qed.

Lemma interactive_configuration_failure_witness :
  w_stdout
    (main (env_of (inr session_1) (inr session_1) configure_broken (inr PyNone))
       (with_credentials None) (start ∅ ∅ ∅)).2
  = [OutPrint "Garmin Connect client initialized successfully.";
     OutPrint "Failed to configure modules: no client"].
Proof.
  refine (proj2 (proj1 (interactive_configuration_failure _ (with_credentials None)
                          _ (MkGarmin None None false session_1)
                          (Exn RuntimeError "no client") _ _) _));
    reflexivity.
Defined.

(** X14: an exception raised when the application is created, when
    [list_activities] is added to it or while it runs is caught nowhere:
    in both modes it ends the process with status 1, and [main] reports
    it neither as a notification nor as text. *)
Theorem runtime_exception_crashes (env : environment) (g : globals)
    (w : world) (c : Garmin) (e : exn) :
  (init_api env g (email g) (password g) w).1 = Ret (Some c) →
  first_fault env (map OpConfigure modules) = None →
  fault env OpFastMCP = Some e
  ∨ (fault env OpFastMCP = None
     ∧ first_fault env (map OpRegister modules) = None
     ∧ (fault env OpTool = Some e
        ∨ (fault env OpTool = None ∧ fault env OpRun = Some e))) →
  (main env g w).1 = Raise e
  ∧ exit_status (main env g w).1 = 1
  ∧ w_stdout (main env g w).2
    = (w_stdout (init_api env g (email g) (password g) w).2
       ++ if mcp_mode g then []
          else [OutPrint "Garmin Connect client initialized successfully."])%list.
Proof.
  intros Hinit Hconf Hwhere. rewrite main_run.
  destruct (init_api env g (email g) (password g) w) as [r w1];
    cbn [fst snd] in *; subst r. rewrite Hconf.
  destruct Hwhere as [->|(-> & -> & [->|[-> ->]])];
    destruct (mcp_mode g); cbn; by rewrite ?app_nil_r.
Qed.

Lemma runtime_exception_crashes_witness :
  (main (env_of (inr session_1) (inr session_1) runtime_broken (inr PyNone))
     (with_credentials (Some "1")) (start ∅ ∅ ∅)).1
  = Raise (Exn RuntimeError "transport closed").
Proof.
  refine (proj1 (runtime_exception_crashes _ (with_credentials (Some "1")) _
                   (MkGarmin (Some "a@b.c") (Some "pw") false session_1)
                   (Exn RuntimeError "transport closed") _ _ _)).
  - reflexivity.
  - reflexivity.
  - right. repeat split; try reflexivity. right. split; reflexivity.
Defined.

(** X15: a process started without [GARMIN_EMAIL] or without
    [GARMIN_PASSWORD] in its environment (unset or empty) makes no network
    or file system call and leaves the file system as it was.  With
    [MCP_MODE] set it writes the two notifications and ends with status 1;
    without, it prints the one line about the missing variables and ends
    with status 0. *)
Theorem process_without_credentials (env : environment)
    (environ : gmap string string) (dirs : gset string)
    (store : gmap string session) (files : gmap string string) :
  absent_or_empty (environ !! "GARMIN_EMAIL")
  ∨ absent_or_empty (environ !! "GARMIN_PASSWORD") →
  main env (load_globals environ) (start dirs store files)
  = if mcp_mode (load_globals environ)
    then (Exit 1,
          World []
            [OutJson (mcp_error_response missing_credentials_msg);
             OutJson (mcp_error_response
                        "Failed to initialize Garmin Connect client")]
            dirs store files)
    else (Ret tt, World [] [OutPrint missing_credentials_msg] dirs store files).
Proof.
  intros Hmissing. rewrite main_run.
  rewrite (init_api_no_credentials env (load_globals environ) _ _ _ Hmissing).
  unfold notice. by destruct (mcp_mode (load_globals environ)).
Qed.

Lemma process_without_credentials_witness :
  main (env_of (inr session_1) (inr session_1) no_fault (inr PyNone))
    (load_globals {[ "GARMIN_EMAIL" := "a@b.c" ]})
    (start ∅ {[ "/home/u/.garminconnect" := session_1 ]} ∅)
  = (Ret tt,
     World [] [OutPrint missing_credentials_msg]
       ∅ {[ "/home/u/.garminconnect" := session_1 ]} ∅).
Proof.
  refine (process_without_credentials _ {[ "GARMIN_EMAIL" := "a@b.c" ]} _ _ _ _).
  right. left. reflexivity.
Defined.

(** ** Further properties of the activity listing *)

Lemma offending_well_formed (a : pyval) :
  offending a = None ↔ well_formed_activity a.
Proof.
  destruct a as [| | | | |entries]; cbn; try done.
  destruct (assoc "activityType" entries) as [[]|]; done.
Qed.

Lemma format_activity_offending (env : environment) (idx : nat) (a v : pyval)
    (w : world) :
  offending a = Some v →
  format_activity env idx a w
  = (Raise (Exn AttributeError
              ("'" +:+ type_name v +:+ "' object has no attribute 'get'")), w).
Proof.
  unfold format_activity, mbind, py_bind, lift, raise, mret, py_ret.
  destruct a as [| | | | |entries]; cbn; try (by intros [= <-]).
  destruct (assoc "activityType" entries) as [[]|]; cbn;
    try done; by intros [= <-].
Qed.

Lemma format_activity_world (env : environment) (idx : nat) (a : pyval)
    (w : world) :
  (format_activity env idx a w).2 = w.
Proof.
  destruct (offending a) as [v|] eqn:Hoff.
  - by rewrite (format_activity_offending env idx a v w Hoff).
  - apply offending_well_formed in Hoff.
    destruct (format_activity_well_formed env idx a w Hoff) as [block ->]. done.
Qed.

Lemma format_activities_world (env : environment) (items : list pyval) :
  ∀ (idx : nat) (result : string) (w : world),
    (format_activities env idx items result w).2 = w.
Proof.
  induction items as [|a items IH]; intros idx result w; [done|].
  cbn [format_activities]. unfold mbind, py_bind.
  pose proof (format_activity_world env idx a w) as Hw.
  destruct (format_activity env idx a w) as [[block|e|c] w1]; cbn in *; subst w1;
    [apply IH|done|done].
Qed.

Lemma format_activities_ret_inv (env : environment) (items : list pyval) :
  ∀ (idx : nat) (result text : string) (w : world),
    (format_activities env idx items result w).1 = Ret text →
    Forall well_formed_activity items ∧ ∃ body, text = result +:+ body.
Proof.
  induction items as [|a items IH]; intros idx result text w.
  - cbn. intros [= <-]. split; [constructor|].
    exists EmptyString. by rewrite append_empty_r.
  - cbn [format_activities]. unfold mbind, py_bind.
    destruct (offending a) as [v|] eqn:Hoff.
    { by rewrite (format_activity_offending env idx a v w Hoff). }
    apply offending_well_formed in Hoff.
    destruct (format_activity_well_formed env idx a w Hoff) as [block ->].
    intros Hret. destruct (IH _ _ _ _ Hret) as [Hwf [body ->]].
    split; [by constructor|]. exists (block +:+ body). by rewrite append_assoc.
Qed.

(** The five ways the body of the [try] statement can go. *)
Lemma fetch_and_format_run (env : environment) (c : Garmin) (limit : Z)
    (w : world) :
  fetch_and_format env c limit w
  = match get_activities env c 0 limit with
    | inl e => (Raise e, log_event (EvGetActivities 0 limit (Some e)) w)
    | inr v =>
        let w1 := log_event (EvGetActivities 0 limit None) w in
        if truthy v then
          match py_len v, py_iter v with
          | inr n, inr items => format_activities env 1 items (header n) w1
          | inl e, _ => (Raise e, w1)
          | inr _, inl e => (Raise e, w1)
          end
        else (Ret "No activities found.", w1)
    end.
Proof.
  unfold fetch_and_format, client_get_activities.
  unfold mbind at 1, py_bind at 1.
  destruct (get_activities env c 0 limit) as [e|v]; [done|].
  destruct (truthy v); [|done]. cbn [negb].
  unfold mbind, py_bind, lift, raise, mret, py_ret.
  by destruct (py_len v), (py_iter v).
Qed.

Lemma list_activities_run (env : environment) (g : globals) (c : Garmin)
    (limit : Z) (w : world) :
  list_activities env g c limit w
  = match fetch_and_format env c limit w with
    | (Ret text, w1) => (Ret text, w1)
    | (Raise e, w1) =>
        (Ret ("Error retrieving activities: " +:+ exn_str e),
         if mcp_mode g
         then emit (OutJson (mcp_error_response
                               ("Error retrieving activities: " +:+ exn_str e))) w1
         else w1)
    | (Exit code, w1) => (Exit code, w1)
    end.
Proof.
  unfold list_activities, try_except_Exception.
  destruct (fetch_and_format env c limit w) as [[text|e|code] w1]; try done.
  unfold send_mcp_error, stdout_write_json, effect, mbind, py_bind, mret, py_ret.
  by destruct (mcp_mode g).
Qed.

Lemma header_not_error (n : nat) (body : string) (e : exn) :
  header n +:+ body ≠ "Error retrieving activities: " +:+ exn_str e.
Proof. unfold header. cbv [String.append]. discriminate. Qed.

(** X16: [list_activities] calls [get_activities] exactly once, from
    offset 0 and with the [limit] it was given, and makes no other call;
    directories, token store and files are untouched. *)
Theorem list_activities_one_call (env : environment) (g : globals)
    (c : Garmin) (limit : Z) (w : world) :
  w_log (list_activities env g c limit w).2
  = (w_log w
     ++ [EvGetActivities 0 limit
           (match get_activities env c 0 limit with
            | inl e => Some e
            | inr _ => None
            end)])%list
  ∧ w_dirs (list_activities env g c limit w).2 = w_dirs w
  ∧ w_store (list_activities env g c limit w).2 = w_store w
  ∧ w_files (list_activities env g c limit w).2 = w_files w.
Proof.
  rewrite list_activities_run, fetch_and_format_run.
  destruct (get_activities env c 0 limit) as [e|v].
  { by destruct (mcp_mode g). }
  cbv zeta. destruct (truthy v); [|done].
  destruct (py_len v) as [e|n]; [by destruct (mcp_mode g)|].
  destruct (py_iter v) as [e|items]; [by destruct (mcp_mode g)|].
  pose proof (format_activities_world env items 1%nat (header n)
                (log_event (EvGetActivities 0 limit None) w)) as Hw.
  destruct (format_activities env 1 items (header n)
              (log_event (EvGetActivities 0 limit None) w)) as [[text|e|code] w1];
    cbn in Hw; subst w1; try done.
  by destruct (mcp_mode g).
Qed.

Lemma no_activities_not_error (e : exn) :
  "No activities found." ≠ "Error retrieving activities: " +:+ exn_str e.
Proof. cbv [String.append]. discriminate. Qed.

Lemma no_activities_not_header (n : nat) (body : string) :
  "No activities found." ≠ header n +:+ body.
Proof. unfold header. cbv [String.append]. discriminate. Qed.

Lemma format_activities_first_offending (env : environment)
    (good : list pyval) (bad : pyval) (rest : list pyval) (v : pyval) :
  Forall well_formed_activity good → offending bad = Some v →
  ∀ (idx : nat) (result : string) (w : world),
    format_activities env idx (good ++ bad :: rest) result w
    = (Raise (Exn AttributeError
                ("'" +:+ type_name v +:+ "' object has no attribute 'get'")), w).
Proof.
  intros Hgood Hbad.
  induction Hgood as [|a good Ha _ IH]; intros idx result w.
  - cbn [app format_activities]. unfold mbind, py_bind.
    by rewrite (format_activity_offending env idx bad v w Hbad).
  - cbn [app format_activities]. unfold mbind, py_bind.
    destruct (format_activity_well_formed env idx a w Ha) as [block ->].
    apply IH.
Qed.

(** X17: in interactive mode [list_activities] writes nothing to standard
    output.  In MCP mode it writes one notification exactly when it
    returns the error message, and the notification carries the message
    returned. *)
Theorem list_activities_error_notification (env : environment) (g : globals)
    (c : Garmin) (limit : Z) (w : world) (text : string) :
  (list_activities env g c limit w).1 = Ret text →
  (retrieval_error text →
   w_stdout (list_activities env g c limit w).2
   = (w_stdout w
      ++ if mcp_mode g then [OutJson (mcp_error_response text)] else [])%list)
  ∧ (¬ retrieval_error text →
     w_stdout (list_activities env g c limit w).2 = w_stdout w).
Proof.
  rewrite list_activities_run.
  pose proof (fetch_and_format_run env c limit w) as Hrun.
  destruct (fetch_and_format env c limit w) as [[text'|e|code] w1] eqn:Hbody;
    cbn [fst snd]; [| |done].
  - (* the body returned: no error message, output untouched *)
    intros [= <-].
    assert (w_stdout w1 = w_stdout w ∧ ¬ retrieval_error text') as [Hout Hnot].
    { destruct (get_activities env c 0 limit) as [e|v]; [done|].
      cbv zeta in Hrun. destruct (truthy v).
      - destruct (py_len v) as [e|n]; [done|].
        destruct (py_iter v) as [e|items]; [done|].
        pose proof (format_activities_world env items 1%nat (header n)
                      (log_event (EvGetActivities 0 limit None) w)) as Hw.
        pose proof (format_activities_ret_inv env items 1%nat (header n) text'
                      (log_event (EvGetActivities 0 limit None) w)) as Hinv.
        rewrite <- Hrun in Hw, Hinv. cbn in Hw, Hinv. subst w1.
        destruct (Hinv eq_refl) as [_ [body ->]].
        split; [done|]. intros [e He]. by apply header_not_error in He.
      - simplify_eq. split; [done|].
        intros [e He]. by apply no_activities_not_error in He. }
    split; [done|]. by intros _.
  - (* the body raised: the message is returned, and notified in MCP mode *)
    intros [= <-].
    assert (w_stdout w1 = w_stdout w) as Hout.
    { destruct (get_activities env c 0 limit) as [e'|v]; [by simplify_eq|].
      cbv zeta in Hrun. destruct (truthy v); [|done].
      destruct (py_len v) as [e'|n]; [by simplify_eq|].
      destruct (py_iter v) as [e'|items]; [by simplify_eq|].
      pose proof (format_activities_world env items 1%nat (header n)
                    (log_event (EvGetActivities 0 limit None) w)) as Hw.
      rewrite <- Hrun in Hw. cbn in Hw. by subst w1. }
    split.
    + intros _. destruct (mcp_mode g); cbn; by rewrite Hout, ?app_nil_r.
    + intros Hnot. destruct Hnot. by exists e.
Qed.

Lemma list_activities_error_notification_witness :
  w_stdout
    (list_activities
       (env_of (inr session_1) (inr session_1) no_fault
          (inl (Exn GarminConnectConnectionError "timed out")))
       automated (MkGarmin None None false session_1) 5 (start ∅ ∅ ∅)).2
  = [OutJson (mcp_error_response "Error retrieving activities: timed out")].
Proof.
  refine (proj1 (list_activities_error_notification _ automated _ 5 (start ∅ ∅ ∅)
                   "Error retrieving activities: timed out" _) _).
  - reflexivity.
  - by exists (Exn GarminConnectConnectionError "timed out").
Defined.

(** X18: the text [list_activities] returns begins with the header
    [Last N activities:] if and only if [get_activities] has returned a
    list that is not empty and whose activities are all well formed. *)
Theorem list_activities_header_iff (env : environment) (g : globals)
    (c : Garmin) (limit : Z) (w : world) (text : string) :
  (list_activities env g c limit w).1 = Ret text →
  (∃ n, states_count n text)
  ↔ ∃ items, get_activities env c 0 limit = inr (PyList items)
             ∧ items ≠ [] ∧ Forall well_formed_activity items.
Proof.
  rewrite list_activities_run, fetch_and_format_run.
  destruct (get_activities env c 0 limit) as [e|v] eqn:Hget; cbn [fst].
  { intros [= <-]. split.
    - intros [n [body Hbody]]. symmetry in Hbody. by apply header_not_error in Hbody.
    - by intros (items & ? & _). }
  cbv zeta. destruct (truthy v) eqn:Htruthy; cbn [fst].
  2: { intros [= <-]. split.
       - intros [n [body Hbody]]. by apply no_activities_not_header in Hbody.
       - intros (items & [= ->] & Hne & _). by destruct items. }
  assert (∀ msg, (∃ n, states_count n ("Error retrieving activities: " +:+ msg))
                 → False) as Herr.
  { intros msg [n [body Hbody]]. symmetry in Hbody.
    by apply (header_not_error n body (Exn AttributeError msg)) in Hbody. }
  destruct v as [| | | s |items|entries]; cbn [py_len py_iter]; cbn [fst];
    try (intros [= <-]; split; [intros H; by destruct (Herr _ H)
                               | by intros (items & ? & _)]).
  - (* a string: its first character is no activity *)
    destruct s as [|ch s]; [done|]. cbn [chars].
    rewrite (format_activities_first_offending env []
               (PyStr (String ch EmptyString)) (chars s)
               (PyStr (String ch EmptyString)) (Forall_nil_2 _) eq_refl).
    cbn [fst]. intros [= <-]. split; [intros H; by destruct (Herr _ H)|].
    by intros (items & ? & _).
  - (* a list *)
    destruct (format_activities env 1 items (header (length items))
                (log_event (EvGetActivities 0 limit None) w))
      as [[text'|e|code] w1] eqn:Hfmt; cbn [fst]; [| |done].
    + intros [= <-].
      destruct (format_activities_ret_inv env items 1%nat _ text' _
                  (f_equal fst Hfmt)) as [Hwf [body ->]].
      split; [|by eexists _, _].
      intros _. exists items. repeat split; try done. by destruct items.
    + intros [= <-]. split; [intros H; by destruct (Herr _ H)|].
      intros (items' & [= <-] & _ & Hwf).
      destruct (format_activities_well_formed env items Hwf 1%nat
                  (header (length items))
                  (log_event (EvGetActivities 0 limit None) w)) as [body Hbody].
      by rewrite Hbody in Hfmt.
  - (* a dict: its first key is no activity *)
    destruct entries as [|[k x] entries]; [done|]. cbn [map fst].
    rewrite (format_activities_first_offending env []
               (PyStr k) (map (λ kv, PyStr kv.1) entries)
               (PyStr k) (Forall_nil_2 _) eq_refl).
    cbn [fst]. intros [= <-]. split; [intros H; by destruct (Herr _ H)|].
    by intros (items & ? & _).
Qed.

Lemma list_activities_header_iff_witness :
  ∃ n, states_count n
         ("Last 1 activities:" +:+ nl +:+ nl +:+ "--- Activity 1 ---" +:+ nl
          +:+ "Activity: Morning Run" +:+ nl +:+ "Type: running" +:+ nl
          +:+ "Date: 2024-05-01 07:30:00" +:+ nl +:+ "ID: 42" +:+ nl +:+ nl).
Proof.
  refine (proj2 (list_activities_header_iff
                   (env_of (inr session_1) (inr session_1) no_fault
                      (inr (PyList [morning_run])))
                   interactive (MkGarmin None None false session_1) 5
                   (start ∅ ∅ ∅) _ _) _).
  - reflexivity.
  - exists [morning_run]. split; [reflexivity|]. split; [discriminate|].
    repeat constructor.
Defined.

(** X19: when the list [get_activities] returns has an activity that
    cannot be formatted, what was formatted before it is dropped and the
    error message names the type of the first value on which [.get]
    fails: the activity when it is no [dict], else its ["activityType"]. *)
Theorem list_activities_first_offending (env : environment) (g : globals)
    (c : Garmin) (limit : Z) (w : world)
    (good : list pyval) (bad : pyval) (rest : list pyval) (v : pyval) :
  get_activities env c 0 limit = inr (PyList (good ++ bad :: rest)) →
  Forall well_formed_activity good →
  offending bad = Some v →
  (list_activities env g c limit w).1
  = Ret ("Error retrieving activities: '" +:+ type_name v
         +:+ "' object has no attribute 'get'").
Proof.
  intros Hget Hgood Hbad.
  rewrite list_activities_run, fetch_and_format_run, Hget. cbv zeta.
  assert (truthy (PyList (good ++ bad :: rest)) = true) as ->.
  { by destruct good. }
  cbn [py_len py_iter].
  by rewrite (format_activities_first_offending env good bad rest v Hgood Hbad).
Qed.

Lemma list_activities_first_offending_witness :
  (list_activities
     (env_of (inr session_1) (inr session_1) no_fault
        (inr (PyList [morning_run; PyInt 7; null_type_activity])))
     interactive (MkGarmin None None false session_1) 5 (start ∅ ∅ ∅)).1
  = Ret "Error retrieving activities: 'int' object has no attribute 'get'".
Proof.
  refine (list_activities_first_offending _ interactive _ 5 _
            [morning_run] (PyInt 7) [null_type_activity] (PyInt 7) _ _ _).
  - reflexivity.
  - repeat constructor.
  - reflexivity.
Defined.

(** X20: when [get_activities] returns something truthy that is no list,
    [list_activities] returns the error message: for a number or [True]
    the one of [len], for a string or a [dict] the one of [.get] on the
    first character or key. *)
Theorem list_activities_not_a_list (env : environment) (g : globals)
    (c : Garmin) (limit : Z) (w : world) (v : pyval) :
  get_activities env c 0 limit = inr v →
  truthy v = true →
  (∀ items, v ≠ PyList items) →
  (list_activities env g c limit w).1
  = Ret ("Error retrieving activities: "
         +:+ match v with
             | PyStr _ | PyDict _ => "'str' object has no attribute 'get'"
             | _ => "object of type '" +:+ type_name v +:+ "' has no len()"
             end).
Proof.
  intros Hget Htruthy Hnot.
  rewrite list_activities_run, fetch_and_format_run, Hget. cbv zeta.
  rewrite Htruthy.
  destruct v as [| | | s |items|entries]; cbn [py_len py_iter]; try done.
  - destruct s as [|ch s]; [done|]. cbn [chars].
    by rewrite (format_activities_first_offending env []
                  (PyStr (String ch EmptyString)) (chars s)
                  (PyStr (String ch EmptyString)) (Forall_nil_2 _) eq_refl).
  - by destruct (Hnot items).
  - destruct entries as [|[k x] entries]; [done|]. cbn [map fst].
    by rewrite (format_activities_first_offending env []
                  (PyStr k) (map (λ kv, PyStr kv.1) entries)
                  (PyStr k) (Forall_nil_2 _) eq_refl).
Qed.

Lemma list_activities_not_a_list_witness :
  (list_activities
     (env_of (inr session_1) (inr session_1) no_fault
        (inr (PyDict [("message", PyStr "Too Many Requests")])))
     interactive (MkGarmin None None false session_1) 5 (start ∅ ∅ ∅)).1
  = Ret "Error retrieving activities: 'str' object has no attribute 'get'".
Proof.
  refine (list_activities_not_a_list _ interactive _ 5 _
            (PyDict [("message", PyStr "Too Many Requests")]) _ _ _).
  - reflexivity.
  - reflexivity.
  - discriminate.
Defined.

(** X21: the loop numbers the activities in sequence: formatting a list
    made of two parts is formatting the first part and then, from the
    text reached and from the number that follows, the second; an error
    in the first part is the error of the whole. *)
Theorem format_activities_app (env : environment) (l1 l2 : list pyval) :
  ∀ (idx : nat) (result : string) (w : world),
    format_activities env idx (l1 ++ l2) result w
    = (r ← format_activities env idx l1 result;
       format_activities env (idx + length l1) l2 r) w.
Proof.
  induction l1 as [|a l1 IH]; intros idx result w.
  - cbn [app length format_activities]. unfold mbind, py_bind, mret, py_ret.
    by rewrite Nat.add_0_r.
  - cbn [app length format_activities]. unfold mbind, py_bind in *.
    destruct (format_activity env idx a w) as [[block|e|code] w1]; try done.
    rewrite IH. by rewrite Nat.add_succ_comm.
Qed.

(** X22: an activity that has none of the keys ["activityName"],
    ["activityType"], ["startTimeLocal"] and ["activityId"] is shown with
    [Unknown] in each of the four fields, under its number. *)
Theorem format_activity_unknown (env : environment) (idx : nat)
    (entries : list (string * pyval)) (w : world) :
  lacks_shown_keys entries →
  format_activity env idx (PyDict entries) w
  = (Ret ("--- Activity " +:+ pretty idx +:+ " ---" +:+ nl
          +:+ "Activity: Unknown" +:+ nl
          +:+ "Type: Unknown" +:+ nl
          +:+ "Date: Unknown" +:+ nl
          +:+ "ID: Unknown" +:+ nl +:+ nl), w).
Proof.
  intros (Hname & Htype & Hdate & Hid).
  unfold format_activity, mbind, py_bind, lift, mret, py_ret, py_get.
  by rewrite Hname, Htype, Hdate, Hid.
Qed.

Lemma format_activity_unknown_witness :
  format_activity (env_of (inr session_1) (inr session_1) no_fault (inr PyNone))
    3 (PyDict [("distance", PyInt 5000)]) (start ∅ ∅ ∅)
  = (Ret ("--- Activity 3 ---" +:+ nl
          +:+ "Activity: Unknown" +:+ nl
          +:+ "Type: Unknown" +:+ nl
          +:+ "Date: Unknown" +:+ nl
          +:+ "ID: Unknown" +:+ nl +:+ nl), start ∅ ∅ ∅).
Proof.
  refine (format_activity_unknown _ 3 [("distance", PyInt 5000)] _ _).
  repeat split.
Defined.
